(** * TCS34725 colour sensor: photometric conversion and auto-exposure

    A shallow embedding of [esphome/components/tcs34725/tcs34725.cpp].

    The component computes in IEEE 754 single precision ([float]), and in a
    few places in double precision (where a [double] literal such as
    [655.35] takes part).  Both formats are modelled bit-exactly with the
    parameterised specification of the Standard Library ([SpecFloat]):
    binary32 is [prec = 24], [emax = 128]; binary64 is [prec = 53],
    [emax = 1024].  Every operation rounds to nearest, ties to even, and
    expressions are evaluated in the format of their C++ type (no excess
    precision).  Logging and the [millis()] time stamps have no effect on
    the component and are left out. *)

From Stdlib Require Import ZArith QArith Qround Bool List Lia.
From Stdlib Require Import Floats.SpecFloat.
Import ListNotations.

Local Open Scope Z_scope.

(** ** Single and double precision numbers *)

Module F32.
Definition prec : Z := 24.
Definition emax : Z := 128.

Definition t := spec_float.

Definition nan : t := S754_nan.
Definition add : t -> t -> t := SFadd prec emax.
Definition sub : t -> t -> t := SFsub prec emax.
Definition mul : t -> t -> t := SFmul prec emax.
Definition div : t -> t -> t := SFdiv prec emax.

(** [a < b], [a <= b]: false as soon as one side is not a number. *)
Definition ltb : t -> t -> bool := SFltb.
Definition leb : t -> t -> bool := SFleb.

(** Conversion of an integer; exact for every 16-bit value. *)
Definition of_Z (z : Z) : t := binary_normalize prec emax z 0 false.

(** A decimal literal [num / den] written with the [f] suffix: the nearest
    single precision number (both [num] and [den] are below [2^24], so the
    one rounding of the division is the rounding of the literal). *)
Definition lit (num den : Z) : t := div (of_Z num) (of_Z den).

(** Conversion from double precision (one rounding). *)
Definition of_f64 (x : spec_float) : t :=
  match x with
  | S754_finite s m e =>
      binary_normalize prec emax (cond_Zopp s (Zpos m)) e false
  | _ => x
  end.

(** Truncation toward zero of a finite number; [None] for infinities and
    for not-a-number. *)
Definition trunc (x : t) : option Z :=
  match x with
  | S754_zero _ => Some 0
  | S754_finite s m e =>
      let a := match e with
               | Zneg p => Z.shiftr (Zpos m) (Zpos p)
               | _ => Z.shiftl (Zpos m) e
               end in
      Some (cond_Zopp s a)
  | _ => None
  end.

(** The cast [(uint8_t) x].  The conversion is defined by the language
    only when the truncated value fits the type; [None] stands for the
    undefined cases. *)
Definition to_uint8 (x : t) : option Z :=
  match trunc x with
  | Some z => if (0 <=? z) && (z <=? 255) then Some z else None
  | None => None
  end.

(** The rational number a finite value stands for. *)
Definition to_Q (x : t) : option Q :=
  match x with
  | S754_zero _ => Some 0%Q
  | S754_finite s m e =>
      let q := match e with
               | Zneg p => Qmake (Zpos m) (2 ^ p)
               | _ => inject_Z (Zpos m * 2 ^ e)
               end in
      Some (if s then Qopp q else q)
  | _ => None
  end.
End F32.

Module F64.
Definition prec : Z := 53.
Definition emax : Z := 1024.

Definition t := spec_float.

Definition div : t -> t -> t := SFdiv prec emax.
Definition ltb : t -> t -> bool := SFltb.

Definition of_Z (z : Z) : t := binary_normalize prec emax z 0 false.

(** A decimal literal without suffix. *)
Definition lit (num den : Z) : t := div (of_Z num) (of_Z den).

(** Promotion of a single precision value; exact. *)
Definition of_f32 (x : F32.t) : t :=
  match x with
  | S754_finite s m e =>
      binary_normalize prec emax (cond_Zopp s (Zpos m)) e false
  | _ => x
  end.
End F64.

(** ** The component *)

(** Unsigned integers of the component are kept as [Z] inside their range;
    [wrap8] is the conversion of an [int] result back to [uint8_t]. *)
Definition wrap8 (z : Z) : Z := z mod 256.

Definition is_uint8 (z : Z) : Prop := 0 <= z <= 255.
Definition is_uint16 (z : Z) : Prop := 0 <= z <= 65535.

(** Modelled from the spec: the enumerators of [tcs34725.h], which is not
    among the sources.  The integration register holds [256 - steps] with
    2.4 ms per step, the 154 ms setting is the one of 64 steps, and [0x100]
    is, as the comment in [set_integration_time] says, the request for the
    automatic mode.  The gain register takes the values 0 to 3. *)
Definition TCS34725_INTEGRATION_TIME_154MS : Z := 0xC0.
Definition TCS34725_INTEGRATION_TIME_AUTO : Z := 0x100.

Definition TCS34725_REGISTER_ATIME : Z := Z.lor 0x80 0x01.
Definition TCS34725_REGISTER_CONTROL : Z := Z.lor 0x80 0x0F.
Definition TCS34725_REGISTER_CRGBDATAL : Z := Z.lor 0x80 0x14.

(** Modelled from the spec: the fields of [TCS34725Component] are declared
    in [tcs34725.h]; the registers are 8-bit, the times, factors and
    results single precision.  A sensor pointer is [None] when it is null
    and otherwise carries the last published state. *)
Record TCS34725Component := mkComponent {
  integration_reg_ : Z;
  gain_reg_ : Z;
  integration_time_ : F32.t;
  gain_ : F32.t;
  glass_attenuation_ : F32.t;
  illuminance_ : F32.t;
  color_temperature_ : F32.t;
  integration_time_auto_ : bool;
  red_sensor_ : option F32.t;
  green_sensor_ : option F32.t;
  blue_sensor_ : option F32.t;
  clear_sensor_ : option F32.t;
  illuminance_sensor_ : option F32.t;
  color_temperature_sensor_ : option F32.t;
  status_warning_ : bool;
  failed_ : bool
}.

Definition set_illuminance_ (v : F32.t) (st : TCS34725Component) :=
  mkComponent (integration_reg_ st) (gain_reg_ st) (integration_time_ st)
    (gain_ st) (glass_attenuation_ st) v (color_temperature_ st)
    (integration_time_auto_ st) (red_sensor_ st) (green_sensor_ st)
    (blue_sensor_ st) (clear_sensor_ st) (illuminance_sensor_ st)
    (color_temperature_sensor_ st) (status_warning_ st) (failed_ st).

Definition set_color_temperature_ (v : F32.t) (st : TCS34725Component) :=
  mkComponent (integration_reg_ st) (gain_reg_ st) (integration_time_ st)
    (gain_ st) (glass_attenuation_ st) (illuminance_ st) v
    (integration_time_auto_ st) (red_sensor_ st) (green_sensor_ st)
    (blue_sensor_ st) (clear_sensor_ st) (illuminance_sensor_ st)
    (color_temperature_sensor_ st) (status_warning_ st) (failed_ st).

Definition set_integration_reg_ (v : Z) (st : TCS34725Component) :=
  mkComponent v (gain_reg_ st) (integration_time_ st)
    (gain_ st) (glass_attenuation_ st) (illuminance_ st)
    (color_temperature_ st)
    (integration_time_auto_ st) (red_sensor_ st) (green_sensor_ st)
    (blue_sensor_ st) (clear_sensor_ st) (illuminance_sensor_ st)
    (color_temperature_sensor_ st) (status_warning_ st) (failed_ st).

Definition set_gain_reg_ (v : Z) (st : TCS34725Component) :=
  mkComponent (integration_reg_ st) v (integration_time_ st)
    (gain_ st) (glass_attenuation_ st) (illuminance_ st)
    (color_temperature_ st)
    (integration_time_auto_ st) (red_sensor_ st) (green_sensor_ st)
    (blue_sensor_ st) (clear_sensor_ st) (illuminance_sensor_ st)
    (color_temperature_sensor_ st) (status_warning_ st) (failed_ st).

Definition set_integration_time_ (v : F32.t) (st : TCS34725Component) :=
  mkComponent (integration_reg_ st) (gain_reg_ st) v
    (gain_ st) (glass_attenuation_ st) (illuminance_ st)
    (color_temperature_ st)
    (integration_time_auto_ st) (red_sensor_ st) (green_sensor_ st)
    (blue_sensor_ st) (clear_sensor_ st) (illuminance_sensor_ st)
    (color_temperature_sensor_ st) (status_warning_ st) (failed_ st).

Definition set_gain_ (v : F32.t) (st : TCS34725Component) :=
  mkComponent (integration_reg_ st) (gain_reg_ st) (integration_time_ st)
    v (glass_attenuation_ st) (illuminance_ st)
    (color_temperature_ st)
    (integration_time_auto_ st) (red_sensor_ st) (green_sensor_ st)
    (blue_sensor_ st) (clear_sensor_ st) (illuminance_sensor_ st)
    (color_temperature_sensor_ st) (status_warning_ st) (failed_ st).

Definition set_glass_attenuation_ (v : F32.t) (st : TCS34725Component) :=
  mkComponent (integration_reg_ st) (gain_reg_ st) (integration_time_ st)
    (gain_ st) v (illuminance_ st)
    (color_temperature_ st)
    (integration_time_auto_ st) (red_sensor_ st) (green_sensor_ st)
    (blue_sensor_ st) (clear_sensor_ st) (illuminance_sensor_ st)
    (color_temperature_sensor_ st) (status_warning_ st) (failed_ st).

Definition set_integration_time_auto_ (v : bool) (st : TCS34725Component) :=
  mkComponent (integration_reg_ st) (gain_reg_ st) (integration_time_ st)
    (gain_ st) (glass_attenuation_ st) (illuminance_ st)
    (color_temperature_ st)
    v (red_sensor_ st) (green_sensor_ st)
    (blue_sensor_ st) (clear_sensor_ st) (illuminance_sensor_ st)
    (color_temperature_sensor_ st) (status_warning_ st) (failed_ st).

Definition set_sensors_rgbc (r g b c : option F32.t)
    (st : TCS34725Component) :=
  mkComponent (integration_reg_ st) (gain_reg_ st) (integration_time_ st)
    (gain_ st) (glass_attenuation_ st) (illuminance_ st)
    (color_temperature_ st)
    (integration_time_auto_ st) r g b c (illuminance_sensor_ st)
    (color_temperature_sensor_ st) (status_warning_ st) (failed_ st).

Definition set_sensors_lux_ct (l k : option F32.t)
    (st : TCS34725Component) :=
  mkComponent (integration_reg_ st) (gain_reg_ st) (integration_time_ st)
    (gain_ st) (glass_attenuation_ st) (illuminance_ st)
    (color_temperature_ st)
    (integration_time_auto_ st) (red_sensor_ st) (green_sensor_ st)
    (blue_sensor_ st) (clear_sensor_ st) l k
    (status_warning_ st) (failed_ st).

Definition set_status_warning_ (v : bool) (st : TCS34725Component) :=
  mkComponent (integration_reg_ st) (gain_reg_ st) (integration_time_ st)
    (gain_ st) (glass_attenuation_ st) (illuminance_ st)
    (color_temperature_ st)
    (integration_time_auto_ st) (red_sensor_ st) (green_sensor_ st)
    (blue_sensor_ st) (clear_sensor_ st) (illuminance_sensor_ st)
    (color_temperature_sensor_ st) v (failed_ st).

Definition mark_failed (st : TCS34725Component) :=
  mkComponent (integration_reg_ st) (gain_reg_ st) (integration_time_ st)
    (gain_ st) (glass_attenuation_ st) (illuminance_ st)
    (color_temperature_ st)
    (integration_time_auto_ st) (red_sensor_ st) (green_sensor_ st)
    (blue_sensor_ st) (clear_sensor_ st) (illuminance_sensor_ st)
    (color_temperature_sensor_ st) (status_warning_ st) true.

(** [publish_state] on a sensor that may be absent. *)
Definition publish_state (v : F32.t) (s : option F32.t) : option F32.t :=
  match s with Some _ => Some v | None => None end.

(** ** Photometric conversion *)

(** [check_saturation]: the channel counts as saturated when its value is
    at or above the threshold.  The flag [auto_gain] only selects the log
    message. *)
Definition check_saturation (value : Z) (sat : F32.t) (auto_gain : bool)
  : bool :=
  F32.leb sat (F32.of_Z value).

Definition DF : F32.t := F32.of_Z 310.
Definition R_COEF : F32.t := F32.lit 58 100.
Definition G_COEF : F32.t := F32.lit 1444 1000.
Definition B_COEF : F32.t := S754_zero false.
Definition SCALING_FACTOR : F32.t := F32.lit 342 1000.
Definition CT_COEF : F32.t := F32.of_Z 3810.
Definition CT_OFFSET : F32.t := F32.of_Z 1391.
Definition MAX_ILLUMINANCE : F32.t := F32.of_Z 100000.
Definition MAX_COLOR_TEMPERATURE : F32.t := F32.of_Z 15000.
Definition MIN_COLOR_TEMPERATURE : F32.t := F32.of_Z 1000.

(** [std::max(a, b)] is [(a < b) ? b : a]. *)
Definition std_max (a b : F32.t) : F32.t := if F32.ltb a b then b else a.

(** The saturation level before the ripple margin: digital above 63 steps
    of integration, analog (1024 counts per step) otherwise. *)
Definition sat_level (integration_reg : Z) : F32.t :=
  if 63 <? 256 - integration_reg then F32.of_Z 65535
  else F32.mul (F32.of_Z 1024)
         (F32.sub (F32.of_Z 256) (F32.of_Z integration_reg)).

(** The threshold the channels are compared with: below 150 ms a quarter
    is taken off ([sat -= sat / 4.f]). *)
Definition sat_threshold (st : TCS34725Component) : F32.t :=
  let sat := sat_level (integration_reg_ st) in
  if F32.ltb (integration_time_ st) (F32.of_Z 150)
  then F32.sub sat (F32.div sat (F32.of_Z 4))
  else sat.

Definition any_saturated (st : TCS34725Component) (r g b c : Z) : bool :=
  let sat := sat_threshold st in
  let a := integration_time_auto_ st in
  check_saturation c sat a || check_saturation r sat a
  || check_saturation g sat a || check_saturation b sat a.

(** The illuminance before the upper limit is applied. *)
Definition lux_of (st : TCS34725Component) (r g b : Z) : F32.t :=
  let g1_adjusted :=
    F32.add (F32.add (F32.mul R_COEF (F32.of_Z r))
                     (F32.mul G_COEF (F32.of_Z g)))
            (F32.mul B_COEF (F32.of_Z b)) in
  let g1_scaled := F32.mul SCALING_FACTOR g1_adjusted in
  let cpl := F32.div (F32.mul (integration_time_ st) (gain_ st))
                     (F32.mul (glass_attenuation_ st) DF) in
  std_max (F32.div g1_scaled cpl) (S754_zero false).

(** The colour temperature before the range check. *)
Definition ct_of (r b : Z) : F32.t :=
  F32.add (F32.div (F32.mul CT_COEF (F32.of_Z b)) (F32.of_Z r)) CT_OFFSET.

Definition calculate_temperature_and_lux_ (r g b c : Z)
    (st : TCS34725Component) : TCS34725Component :=
  let st := set_illuminance_ F32.nan st in
  let st := set_color_temperature_ F32.nan st in
  if c =? 0 then st
  else if any_saturated st r g b c then st
  else
    let st := set_illuminance_ (lux_of st r g b) st in
    if F32.ltb MAX_ILLUMINANCE (illuminance_ st)
    then set_illuminance_ F32.nan st
    else if r =? 0 then st
    else
      let st := set_color_temperature_ (ct_of r b) st in
      if F32.ltb (color_temperature_ st) MIN_COLOR_TEMPERATURE
      then set_color_temperature_ F32.nan st
      else if F32.ltb MAX_COLOR_TEMPERATURE (color_temperature_ st)
      then set_color_temperature_ F32.nan st
      else st.

(** ** Settings *)

(** [set_gain]: the register and the multiplier it stands for. *)
Definition set_gain (gain : Z) (st : TCS34725Component)
  : TCS34725Component :=
  let st := set_gain_reg_ gain st in
  match gain with
  | 0 => set_gain_ (F32.of_Z 1) st
  | 1 => set_gain_ (F32.of_Z 4) st
  | 2 => set_gain_ (F32.of_Z 16) st
  | 3 => set_gain_ (F32.of_Z 60) st
  | _ => set_gain_ (F32.of_Z 1) st
  end.

(** The integration time in milliseconds of a register value:
    [(256.f - regval) * 2.4f]. *)
Definition ms_from_integration_reg (regval : Z) : F32.t :=
  F32.mul (F32.sub (F32.of_Z 256) (F32.of_Z regval)) (F32.lit 24 10).

Definition set_integration_time (integration_time : Z)
    (st : TCS34725Component) : TCS34725Component :=
  if integration_time =? TCS34725_INTEGRATION_TIME_AUTO then
    let st := set_integration_time_auto_ true st in
    let st := set_integration_reg_ TCS34725_INTEGRATION_TIME_154MS st in
    set_integration_time_
      (ms_from_integration_reg TCS34725_INTEGRATION_TIME_154MS) st
  else
    let st := set_integration_reg_ (wrap8 integration_time) st in
    let st := set_integration_time_auto_ false st in
    set_integration_time_ (ms_from_integration_reg integration_time) st.

Definition set_glass_attenuation_factor (ga : F32.t)
    (st : TCS34725Component) : TCS34725Component :=
  set_glass_attenuation_ ga st.

(** ** Exposure control (the automatic branch of [update]) *)

(** The clear count in percent of full scale, in double precision:
    [(float) raw_c / 655.35]. *)
Definition clear_pct (raw_c : Z) : F64.t :=
  F64.div (F64.of_f32 (F32.of_Z raw_c)) (F64.lit 65535 100).

(** The ideal time before the gain step:
    [60 / ((float) std::max((uint16_t) 1, raw_c) / 655.35f)
     * integration_time_]. *)
Definition integration_time_ideal0 (raw_c : Z) (st : TCS34725Component)
  : F32.t :=
  F32.mul
    (F32.div (F32.of_Z 60)
       (F32.div (F32.of_Z (Z.max 1 raw_c)) (F32.lit 65535 100)))
    (integration_time_ st).

(** The condition of the first inner [if]: little light and a long
    integration time. *)
Definition gain_up_cond (raw_c : Z) (st : TCS34725Component) : bool :=
  F64.ltb (clear_pct raw_c) (F64.of_f32 (F32.of_Z 20))
  && F32.ltb (F32.of_Z 600) (integration_time_ st).

(** The condition of the second inner [if]: much light and a short
    integration time. *)
Definition gain_down_cond (raw_c : Z) (st : TCS34725Component) : bool :=
  F64.ltb (F64.of_Z 70) (clear_pct raw_c)
  && F32.ltb (integration_time_ st) (F32.of_Z 200).

Definition gain_increases (raw_c : Z) (st : TCS34725Component) : bool :=
  (gain_reg_ st <? 3) && gain_up_cond raw_c st.

Definition gain_decreases (raw_c : Z) (st : TCS34725Component) : bool :=
  (0 <? gain_reg_ st) && gain_down_cond raw_c st.

(** The two gain steps, one [if] after the other as in the source; the
    pair is the new gain register and the adjusted ideal time. *)
Definition adjust_gain (raw_c : Z) (st : TCS34725Component)
  : Z * F32.t :=
  let ideal := integration_time_ideal0 raw_c st in
  let gain_reg_val_new := gain_reg_ st in
  let '(gain_reg_val_new, ideal) :=
    if gain_increases raw_c st
    then (wrap8 (gain_reg_ st + 1), F32.div ideal (F32.of_Z 4))
    else (gain_reg_val_new, ideal) in
  if gain_decreases raw_c st
  then (wrap8 (gain_reg_ st - 1), F32.mul ideal (F32.of_Z 4))
  else (gain_reg_val_new, ideal).

Definition MAX_INTEGRATION_TIME : F32.t :=
  F32.mul (F32.lit 24 10) (F32.of_Z 256).
Definition MIN_INTEGRATION_TIME : F32.t := F32.of_Z 154.

(** "saturate integration times": two independent tests of the ideal
    time, the second after the first. *)
Definition saturate_integration_time (integration_time_ideal : F32.t)
  : F32.t :=
  let integration_time_next := integration_time_ideal in
  let integration_time_next :=
    if F32.ltb MAX_INTEGRATION_TIME integration_time_ideal
    then MAX_INTEGRATION_TIME else integration_time_next in
  if F32.ltb integration_time_ideal MIN_INTEGRATION_TIME
  then MIN_INTEGRATION_TIME else integration_time_next.

(** [(uint8_t) (256.f - integration_time_next / 2.4f)] *)
Definition integration_reg_from_ms (integration_time_next : F32.t)
  : option Z :=
  F32.to_uint8
    (F32.sub (F32.of_Z 256) (F32.div integration_time_next (F32.lit 24 10))).

(** The I2C bus as the component sees it: the answer to the burst read of
    the eight data bytes, and whether a write of a byte to a register
    succeeds. *)
Record Bus := mkBus {
  read_crgb : option (list Z);
  write_register_ok : Z -> Z -> bool
}.

(** The register value proposed for an ideal time. *)
Definition proposed_integration_reg (integration_time_ideal : F32.t)
  : option Z :=
  integration_reg_from_ms (saturate_integration_time integration_time_ideal).

(** The automatic adjustment at the end of [update].  [None] is the
    undefined conversion of an out-of-range value to [uint8_t]. *)
Definition auto_adjust (bus : Bus) (raw_c : Z) (st : TCS34725Component)
  : option TCS34725Component :=
  let '(gain_reg_val_new, integration_time_ideal) := adjust_gain raw_c st in
  let integration_time_next :=
    saturate_integration_time integration_time_ideal in
  match integration_reg_from_ms integration_time_next with
  | None => None
  | Some regval_atime =>
      if negb (integration_reg_ st =? regval_atime)
         || negb (gain_reg_val_new =? gain_reg_ st)
      then
        let st := set_integration_reg_ regval_atime st in
        let st := set_gain_reg_ gain_reg_val_new st in
        let st := set_gain gain_reg_val_new st in
        if negb (write_register_ok bus TCS34725_REGISTER_ATIME
                   (integration_reg_ st))
           || negb (write_register_ok bus TCS34725_REGISTER_CONTROL
                      (gain_reg_ st))
        then Some (mark_failed st)
        else Some (set_integration_time_ integration_time_next st)
      else Some st
  end.

(** A little-endian 16-bit count. *)
Definition le16 (lo hi : Z) : Z := Z.lor lo (Z.shiftl hi 8) mod 65536.

(** The first part of [update], from the raw counts to the publication
    of the six values. *)
Definition measure_and_publish (raw_r raw_g raw_b raw_c : Z)
    (st : TCS34725Component) : TCS34725Component :=
  let '(channel_r, channel_g, channel_b, channel_c) :=
    if raw_c =? 0
    then (S754_zero false, S754_zero false, S754_zero false,
          S754_zero false)
    else
      let max_count :=
        F32.of_f64
          (F64.div
             (F64.of_f32 (F32.mul (integration_time_ st) (F32.of_Z 1024)))
             (F64.lit 24 10)) in
      let sum := F32.of_Z raw_c in
      let hundred := F32.of_Z 100 in
      (F32.mul (F32.div (F32.of_Z raw_r) sum) hundred,
       F32.mul (F32.div (F32.of_Z raw_g) sum) hundred,
       F32.mul (F32.div (F32.of_Z raw_b) sum) hundred,
       F32.mul (F32.div (F32.of_Z raw_c) max_count) hundred) in
  let st :=
    set_sensors_rgbc
      (publish_state channel_r (red_sensor_ st))
      (publish_state channel_g (green_sensor_ st))
      (publish_state channel_b (blue_sensor_ st))
      (publish_state channel_c (clear_sensor_ st)) st in
  let st :=
    match illuminance_sensor_ st, color_temperature_sensor_ st with
    | None, None => st
    | _, _ => calculate_temperature_and_lux_ raw_r raw_g raw_b raw_c st
    end in
  if negb (integration_time_auto_ st) || (raw_c <? 65530)
     || ((gain_reg_ st =? 0)
         && F32.ltb (integration_time_ st) (F32.of_Z 200))
  then
    set_sensors_lux_ct
      (publish_state (illuminance_ st) (illuminance_sensor_ st))
      (publish_state (color_temperature_ st)
         (color_temperature_sensor_ st)) st
  else st.

(** One cycle.  A failed read sets the warning and ends the cycle. *)
Definition update (bus : Bus) (st : TCS34725Component)
  : option TCS34725Component :=
  match read_crgb bus with
  | Some [d0; d1; d2; d3; d4; d5; d6; d7] =>
      let raw_c := le16 d0 d1 in
      let raw_r := le16 d2 d3 in
      let raw_g := le16 d4 d5 in
      let raw_b := le16 d6 d7 in
      let st := measure_and_publish raw_r raw_g raw_b raw_c st in
      match
        (if integration_time_auto_ st then auto_adjust bus raw_c st
         else Some st)
      with
      | Some st => Some (set_status_warning_ false st)
      | None => None
      end
  | _ => Some (set_status_warning_ true st)
  end.

(** The two outputs of the conversion, read back from the component. *)
Definition convert (st : TCS34725Component) (r g b c : Z)
  : F32.t * F32.t :=
  let st' := calculate_temperature_and_lux_ r g b c st in
  (illuminance_ st', color_temperature_ st').

(** What the exposure control reads and writes: the two registers, the
    cached integration time, and the mode. *)
Definition settings_of (st : TCS34725Component) : Z * Z * F32.t * bool :=
  (integration_reg_ st, gain_reg_ st, integration_time_ st,
   integration_time_auto_ st).

(** ** Example settings and samples *)

(** Modelled from the spec: the initial values of the fields are given in
    [tcs34725.h]; the shortest integration time, gain 1x and no glass are
    taken here, with both photometric sensors configured. *)
Definition initial_component : TCS34725Component :=
  mkComponent 255 0 (ms_from_integration_reg 255) (F32.of_Z 1)
    (F32.of_Z 1) F32.nan F32.nan false None None None None
    (Some F32.nan) (Some F32.nan) false false.

(** Manual mode, 2.4 ms, gain 1x, no glass. *)
Definition short_exposure : TCS34725Component :=
  set_gain 0 (set_integration_time 255 initial_component).

(** The same behind a glass that halves the light. *)
Definition short_exposure_behind_glass : TCS34725Component :=
  set_glass_attenuation_factor (F32.of_Z 2) short_exposure.

(** Automatic mode as configured: 64 steps, gain 1x. *)
Definition auto_exposure_start : TCS34725Component :=
  set_gain 0
    (set_integration_time TCS34725_INTEGRATION_TIME_AUTO initial_component).

(** Automatic mode after the controller has settled on 700 ms (the value
    of the specification's example of a gain increase). *)
Definition long_exposure : TCS34725Component :=
  set_integration_time_ (F32.of_Z 700) auto_exposure_start.

(** A bus whose read returns a clear count of 10000 and whose writes all
    fail. *)
Definition bus_write_fails : Bus :=
  mkBus (Some [0x10; 0x27; 0; 0; 0; 0; 0; 0]) (fun _ _ => false).

(** A bus with the same read whose writes all succeed. *)
Definition bus_write_succeeds : Bus :=
  mkBus (Some [0x10; 0x27; 0; 0; 0; 0; 0; 0]) (fun _ _ => true).

(** ** Predicates on single precision values *)

(** [x] is plus infinity or a finite number not below [c * 2^ec], where
    [c] is a 24-digit mantissa. *)
Definition at_least (c : positive) (ec : Z) (x : spec_float) : Prop :=
  x = S754_infinity false \/
  exists m e, x = S754_finite false m e /\
              (ec < e \/ (e = ec /\ (c <= m)%positive)).

(** [x] is a number and is not negative. *)
Definition not_negative (x : spec_float) : bool :=
  match x with
  | S754_zero _ => true
  | S754_infinity s => negb s
  | S754_finite s _ _ => negb s
  | S754_nan => false
  end.

Definition positive_finite (x : spec_float) : bool :=
  match x with
  | S754_finite false _ _ => true
  | _ => false
  end.

(** [P] on the [n] integers from [z] on. *)
Fixpoint forall_from (P : Z -> bool) (z : Z) (n : nat) : bool :=
  match n with
  | O => true
  | S n' => P z && forall_from P (Z.succ z) n'
  end.

(** ** The statements of the specification, in its own words *)

(** The gain step as the specification describes it: the increase, or
    else the decrease, or else no change. *)
Definition adjust_gain_spec (raw_c : Z) (st : TCS34725Component)
  : Z * F32.t :=
  let ideal := integration_time_ideal0 raw_c st in
  if gain_increases raw_c st
  then (gain_reg_ st + 1, F32.div ideal (F32.of_Z 4))
  else if gain_decreases raw_c st
  then (gain_reg_ st - 1, F32.mul ideal (F32.of_Z 4))
  else (gain_reg_ st, ideal).

(** The clamp of the ideal time to the range from 154 ms to 614.4 ms. *)
Definition clamp_spec (t : F32.t) : F32.t :=
  if F32.ltb t (F32.of_Z 154) then F32.of_Z 154
  else if F32.ltb (F32.lit 6144 10) t then F32.lit 6144 10
  else t.

(** The saturation threshold as the specification describes it, as an
    exact number: [1024 * (256 - integration_reg)] up to 63 steps, 65535
    above, and three quarters of that below 150 ms. *)
Definition sat_spec (integration_reg : Z) (below_150ms : bool) : Q :=
  let full :=
    if 256 - integration_reg <=? 63
    then inject_Z (1024 * (256 - integration_reg))
    else inject_Z 65535 in
  if below_150ms then (3 # 4) * full else full.

(** Comparison of a computed value with an exact number. *)
Definition represents (x : F32.t) (q : Q) : bool :=
  match F32.to_Q x with
  | Some v => Qeq_bool v q
  | None => false
  end.

Definition sat_spec_check (integration_reg : Z) : bool :=
  let sat := sat_level integration_reg in
  represents sat (sat_spec integration_reg false)
  && represents (F32.sub sat (F32.div sat (F32.of_Z 4)))
       (sat_spec integration_reg true).

(** Register to milliseconds and back stays within one step. *)
Definition roundtrip_check (reg : Z) : bool :=
  match integration_reg_from_ms (ms_from_integration_reg reg) with
  | Some reg' => (reg - 1 <=? reg') && (reg' <=? reg + 1)
  | None => false
  end.

(** All 8-bit register values. *)
Definition all_uint8 : list Z := map Z.of_nat (seq 0 256).

(** ** Start-up *)

Definition TCS34725_REGISTER_ID : Z := Z.lor 0x80 0x12.




(** ** What a cycle may change *)

(** The exposure state: settings, gain multiplier and failure mark. *)
Definition control_of (st : TCS34725Component)
  : Z * Z * F32.t * bool * F32.t * bool :=
  (settings_of st, gain_ st, failed_ st).

(** The gain multiplier agrees with the gain register. *)
Definition gain_consistent (st : TCS34725Component) : Prop :=
  gain_ st = gain_ (set_gain (gain_reg_ st) st).

(** The integration register is the quantisation of the cached time. *)
Definition time_consistent (st : TCS34725Component) : Prop :=
  integration_reg_from_ms (integration_time_ st)
  = Some (integration_reg_ st).

(** The raw counts of a read of eight bytes: clear, red, green, blue. *)
Definition raw_counts (d : list Z) : option (Z * Z * Z * Z) :=
  match d with
  | [d0; d1; d2; d3; d4; d5; d6; d7] =>
      Some (le16 d0 d1, le16 d2 d3, le16 d4 d5, le16 d6 d7)
  | _ => None
  end.

(** A bus that answers with the eight bytes [d]. *)
Definition bus_reading (d : list Z) (w : Z -> Z -> bool) : Bus :=
  mkBus (Some d) w.

Definition is_byte (z : Z) : Prop := 0 <= z <= 255.

(** Manual mode at gain 16x, as [setup] finds it. *)
Definition manual_16x : TCS34725Component :=
  set_gain 2 (set_integration_time 0xF6 initial_component).

(** Automatic mode at gain 4x, with a sensor for each value. *)
Definition auto_4x_all_sensors : TCS34725Component :=
  set_sensors_rgbc (Some F32.nan) (Some F32.nan) (Some F32.nan)
    (Some F32.nan) (set_gain 1 auto_exposure_start).

(** Automatic mode settled at 604 ms, register 4. *)
Definition settled_604ms : TCS34725Component :=
  set_integration_reg_ 4
    (set_integration_time_ (F32.of_Z 604) auto_exposure_start).

(** A clear count of 60 percent of full scale, the other channels at
    1000, on a bus whose writes all fail. *)
Definition bus_60_percent : Bus :=
  bus_reading [0x99; 0x99; 0xE8; 0x03; 0xE8; 0x03; 0xE8; 0x03]
    (fun _ _ => false).

(** ** Checks by enumeration *)

(** A full-scale count reaches the threshold of every register value,
    with and without the margin. *)
Definition full_scale_check (integration_reg : Z) : bool :=
  let sat := sat_level integration_reg in
  F32.leb sat (F32.of_Z 65535)
  && F32.leb (F32.sub sat (F32.div sat (F32.of_Z 4))) (F32.of_Z 65535).

(** Counts below 768 stay under the threshold of a register value. *)
Definition low_counts_check (integration_reg : Z) : bool :=
  let sat := sat_level integration_reg in
  let sat75 := F32.sub sat (F32.div sat (F32.of_Z 4)) in
  forall_from
    (fun v => negb (F32.leb sat (F32.of_Z v))
              && negb (F32.leb sat75 (F32.of_Z v)))
    0 768.

(** The two bytes of a count decode to [lo + 256 * hi]. *)
Definition le16_check (lo : Z) : bool :=
  forall_from (fun hi => le16 lo hi =? lo + 256 * hi) 0 256.

(** A longer register value is a shorter time. *)
Definition ms_decreasing_check (reg : Z) : bool :=
  let t := ms_from_integration_reg reg in
  forall_from
    (fun reg' =>
       if reg <? reg' then F32.ltb (ms_from_integration_reg reg') t
       else true)
    0 256.

(** ** Publication *)

(** The condition under which illuminance and colour temperature are
    published: manual mode, or a clear count below 65530, or gain 1x
    with a time below 200 ms. *)
Definition publishes_photometry (raw_c : Z) (st : TCS34725Component)
  : bool :=
  negb (integration_time_auto_ st) || (raw_c <? 65530)
  || ((gain_reg_ st =? 0)
      && F32.ltb (integration_time_ st) (F32.of_Z 200)).

(** The six sensors. *)
Definition sensors_of (st : TCS34725Component) :=
  (red_sensor_ st, green_sensor_ st, blue_sensor_ st, clear_sensor_ st,
   illuminance_sensor_ st, color_temperature_sensor_ st).

(** The percentage published for a colour channel. *)
Definition channel_percent (raw raw_c : Z) : F32.t :=
  if raw_c =? 0 then S754_zero false
  else F32.mul (F32.div (F32.of_Z raw) (F32.of_Z raw_c)) (F32.of_Z 100).

(** Is the sensor there, and, if so, does it hold a number that is not
    negative? *)
Definition holds_not_negative (s : option F32.t) : option bool :=
  option_map not_negative s.

Definition present (s : option F32.t) : option bool :=
  option_map (fun _ => true) s.

(** ** Ranges of the registers *)

(** Both registers hold values the device accepts. *)
Definition registers_in_range (st : TCS34725Component) : Prop :=
  is_uint8 (integration_reg_ st) /\ 0 <= gain_reg_ st <= 3.

(** ** Numbers *)

(** A single precision number: not not-a-number, and with the mantissa
    and the exponent in canonical form, as every value of a [float]
    has them. *)
Definition is_number (x : F32.t) : Prop :=
  x <> F32.nan /\ valid_binary 24 128 x = true.

(** ** The quantisation, in the words of the specification *)


(** ** The literals *)

(** The literals of the source as the compiler encodes them: [2.4f] is
    [0x4019999A], [655.35f] is [0x4423D666], [0.58f] is [0x3F147AE1],
    [1.444f] is [0x3FB8D4FE], [0.342f] is [0x3EAF1AA0]; the double
    precision [655.35] is [0x40847ACCCCCCCCCD] and [2.4] is
    [0x4003333333333333]. *)
Lemma literal_encodings :
  F32.lit 24 10 = S754_finite false 0x99999A (-22) /\
  F32.lit 65535 100 = S754_finite false 0xA3D666 (-14) /\
  R_COEF = S754_finite false 0x947AE1 (-24) /\
  G_COEF = S754_finite false 0xB8D4FE (-23) /\
  SCALING_FACTOR = S754_finite false 0xAF1AA0 (-25) /\
  F64.lit 65535 100 = S754_finite false 0x147ACCCCCCCCCD (-43) /\
  F64.lit 24 10 = S754_finite false 0x13333333333333 (-51).
Proof. vm_compute. repeat split. Qed.

(** ** Order of the floating-point comparison *)

Lemma SFcompare_antisym (x y : spec_float) :
  SFcompare y x = option_map CompOpp (SFcompare x y).
Proof.
  destruct x as [sx | sx | | sx mx ex], y as [sy | sy | | sy my ey];
    simpl; try reflexivity;
    try (destruct sx; reflexivity); try (destruct sy; reflexivity).
  - destruct sx, sy; reflexivity.
  - destruct sx, sy; simpl; try reflexivity.
    + rewrite (Z.compare_antisym ex ey).
      destruct (ex ?= ey); simpl; try reflexivity.
      rewrite (Pos.compare_cont_antisym mx my Eq). simpl.
      now destruct (Pos.compare_cont Eq mx my).
    + rewrite (Z.compare_antisym ex ey).
      destruct (ex ?= ey); simpl; try reflexivity.
      now rewrite (Pos.compare_cont_antisym mx my Eq).
Qed.

Lemma SFleb_not_ltb (x y : spec_float) :
  SFleb x y = true -> SFltb y x = false.
Proof.
  unfold SFleb, SFltb. rewrite (SFcompare_antisym x y).
  destruct (SFcompare x y) as [[| |] |]; simpl; congruence.
Qed.

Lemma SFltb_not_ltb (x y : spec_float) :
  SFltb x y = true -> SFltb y x = false.
Proof.
  unfold SFltb. rewrite (SFcompare_antisym x y).
  destruct (SFcompare x y) as [[| |] |]; simpl; congruence.
Qed.

(** When [x < y] fails, [x] is not a number, or [y] is not, or [y <= x]. *)
Lemma SFltb_false_cases (x y : spec_float) :
  SFltb x y = false -> SFcompare x y = None \/ SFleb y x = true.
Proof.
  unfold SFltb, SFleb. rewrite (SFcompare_antisym x y).
  destruct (SFcompare x y) as [[| |] |]; simpl; auto; discriminate.
Qed.

Lemma SFcompare_None (x y : spec_float) :
  SFcompare x y = None -> x = S754_nan \/ y = S754_nan.
Proof.
  destruct x as [sx | sx | | sx mx ex], y as [sy | sy | | sy my ey];
    simpl; auto; discriminate.
Qed.

(** ** Conversion: the guards *)

(** C6. A sample whose clear count is zero leaves both the illuminance
    and the colour temperature undefined (not a number), whatever the
    other channels and the settings are. *)
Theorem zero_clear_undefined (st : TCS34725Component) (r g b c : Z) :
  c = 0 -> convert st r g b c = (F32.nan, F32.nan).
Proof.
  intros Hc. unfold convert, calculate_temperature_and_lux_.
  rewrite (proj2 (Z.eqb_eq c 0) Hc).
  reflexivity.
Qed.

Lemma zero_clear_undefined_witness :
  convert short_exposure 4000 5000 1000 0 = (F32.nan, F32.nan).
Proof.
  apply (zero_clear_undefined short_exposure 4000 5000 1000 0).
  reflexivity.
Defined.

(** C3. When the raw count of at least one of the four channels is at or
    above the saturation threshold, both outputs are undefined, whatever
    the other channels are. *)
Theorem saturated_channel_undefined
    (st : TCS34725Component) (r g b c : Z) :
  F32.leb (sat_threshold st) (F32.of_Z c) = true \/
  F32.leb (sat_threshold st) (F32.of_Z r) = true \/
  F32.leb (sat_threshold st) (F32.of_Z g) = true \/
  F32.leb (sat_threshold st) (F32.of_Z b) = true ->
  convert st r g b c = (F32.nan, F32.nan).
Proof.
  intros H. unfold convert, calculate_temperature_and_lux_.
  destruct (c =? 0); [reflexivity |].
  replace (any_saturated _ r g b c) with true; [reflexivity |].
  symmetry. unfold any_saturated, check_saturation.
  change (sat_threshold (set_color_temperature_ F32.nan
                           (set_illuminance_ F32.nan st)))
    with (sat_threshold st).
  destruct H as [H | [H | [H | H]]]; rewrite H;
    repeat rewrite orb_true_r; reflexivity.
Qed.

Lemma saturated_channel_undefined_witness :
  F32.leb (sat_threshold short_exposure_behind_glass) (F32.of_Z 800) = true
  /\ convert short_exposure_behind_glass 100 100 800 100
     = (F32.nan, F32.nan).
Proof.
  split; [reflexivity |].
  apply (saturated_channel_undefined short_exposure_behind_glass
           100 100 800 100).
  right; right; right. reflexivity.
Defined.

(** ** Conversion: illuminance *)

Lemma std_max_zero_sign (q : F32.t) :
  std_max q (S754_zero false) = F32.nan \/
  F32.leb (S754_zero false) (std_max q (S754_zero false)) = true.
Proof.
  unfold std_max, F32.ltb.
  destruct (SFltb q (S754_zero false)) eqn:E.
  - right. reflexivity.
  - destruct (SFltb_false_cases _ _ E) as [N | L].
    + left. destruct (SFcompare_None _ _ N) as [-> | N']; [reflexivity |].
      discriminate N'.
    + right. exact L.
Qed.

Lemma illuminance_cases (st : TCS34725Component) (r g b c : Z) :
  fst (convert st r g b c) = F32.nan \/
  (fst (convert st r g b c) = lux_of st r g b /\
   F32.ltb MAX_ILLUMINANCE (lux_of st r g b) = false).
Proof.
  unfold convert, calculate_temperature_and_lux_.
  destruct (c =? 0); [left; reflexivity |].
  destruct (any_saturated _ r g b c); [left; reflexivity |].
  cbv zeta.
  change (illuminance_ (set_illuminance_ ?v _)) with v.
  change (lux_of (set_color_temperature_ F32.nan
                    (set_illuminance_ F32.nan st)) r g b)
    with (lux_of st r g b).
  destruct (F32.ltb MAX_ILLUMINANCE (lux_of st r g b)) eqn:E;
    [left; reflexivity |].
  right. split; [| reflexivity].
  destruct (r =? 0); [reflexivity |].
  destruct (F32.ltb _ MIN_COLOR_TEMPERATURE); [reflexivity |].
  destruct (F32.ltb MAX_COLOR_TEMPERATURE _); reflexivity.
Qed.

(** C5. The illuminance output is undefined or at least zero, and when the
    computed illuminance exceeds 100000 the output is undefined (it is not
    replaced by 100000). *)
Theorem illuminance_nonneg_or_undefined
    (st : TCS34725Component) (r g b c : Z) :
  (fst (convert st r g b c) = F32.nan \/
   F32.leb (S754_zero false) (fst (convert st r g b c)) = true) /\
  (F32.ltb MAX_ILLUMINANCE (lux_of st r g b) = true ->
   fst (convert st r g b c) = F32.nan).
Proof.
  destruct (illuminance_cases st r g b c) as [N | [E L]].
  - split; [left; exact N | intros _; exact N].
  - split.
    + rewrite E. unfold lux_of. apply std_max_zero_sign.
    + intros H. rewrite H in L. discriminate L.
Qed.

Lemma illuminance_nonneg_or_undefined_witness :
  F32.ltb MAX_ILLUMINANCE
    (lux_of short_exposure_behind_glass 700 700 700) = true /\
  fst (convert short_exposure_behind_glass 700 700 700 700) = F32.nan.
Proof.
  split; [reflexivity |].
  apply (illuminance_nonneg_or_undefined short_exposure_behind_glass
           700 700 700 700).
  reflexivity.
Defined.

(** ** Conversion: colour temperature *)

(** The colour temperature output once the clear count is not zero and no
    channel is saturated. *)
Lemma color_temperature_unsaturated
    (st : TCS34725Component) (r g b c : Z) :
  c <> 0 -> any_saturated st r g b c = false ->
  snd (convert st r g b c) =
    if F32.ltb MAX_ILLUMINANCE (lux_of st r g b) then F32.nan
    else if r =? 0 then F32.nan
    else if F32.ltb (ct_of r b) MIN_COLOR_TEMPERATURE then F32.nan
    else if F32.ltb MAX_COLOR_TEMPERATURE (ct_of r b) then F32.nan
    else ct_of r b.
Proof.
  intros Hc Hs. unfold convert, calculate_temperature_and_lux_.
  destruct (Z.eqb_spec c 0) as [E | _]; [contradiction |].
  change (any_saturated (set_color_temperature_ F32.nan
                           (set_illuminance_ F32.nan st)) r g b c)
    with (any_saturated st r g b c).
  rewrite Hs. cbv zeta.
  change (illuminance_ (set_illuminance_ ?v _)) with v.
  change (lux_of (set_color_temperature_ F32.nan
                    (set_illuminance_ F32.nan st)) r g b)
    with (lux_of st r g b).
  destruct (F32.ltb MAX_ILLUMINANCE (lux_of st r g b)); [reflexivity |].
  destruct (r =? 0); [reflexivity |].
  change (color_temperature_ (set_color_temperature_ ?v _)) with v.
  destruct (F32.ltb (ct_of r b) MIN_COLOR_TEMPERATURE); [reflexivity |].
  destruct (F32.ltb MAX_COLOR_TEMPERATURE (ct_of r b)); reflexivity.
Qed.

(** C1, as the code has it.  For a sample that passes the saturation
    checks, with a red count other than zero and a computed colour
    temperature within [1000, 15000]: the colour temperature is returned
    as computed when the illuminance is within its limit, and is undefined
    together with the illuminance when the illuminance exceeds 100000. *)
Theorem color_temperature_follows_illuminance_limit
    (st : TCS34725Component) (r g b c : Z) :
  c <> 0 -> any_saturated st r g b c = false -> r <> 0 ->
  F32.leb MIN_COLOR_TEMPERATURE (ct_of r b) = true ->
  F32.leb (ct_of r b) MAX_COLOR_TEMPERATURE = true ->
  snd (convert st r g b c) =
    if F32.ltb MAX_ILLUMINANCE (lux_of st r g b) then F32.nan
    else ct_of r b.
Proof.
  intros Hc Hs Hr Hlo Hhi.
  rewrite (color_temperature_unsaturated st r g b c Hc Hs).
  destruct (Z.eqb_spec r 0) as [E | _]; [contradiction |].
  rewrite (SFleb_not_ltb _ _ Hlo : F32.ltb _ _ = false).
  rewrite (SFleb_not_ltb _ _ Hhi : F32.ltb _ _ = false).
  reflexivity.
Qed.

Lemma color_temperature_follows_illuminance_limit_witness :
  snd (convert short_exposure 700 700 700 700) = ct_of 700 700.
Proof.
  apply (color_temperature_follows_illuminance_limit short_exposure
           700 700 700 700).
  - discriminate.
  - vm_compute; reflexivity.
  - discriminate.
  - vm_compute; reflexivity.
  - vm_compute; reflexivity.
Defined.

(** C1 as it is stated fails: behind the glass the same sample passes the
    saturation checks, its red count is not zero and its computed colour
    temperature, 5201 K, is in range, but the illuminance exceeds the
    limit and the colour temperature is left undefined. *)
Lemma color_temperature_lost_over_illuminance_limit :
  any_saturated short_exposure_behind_glass 700 700 700 700 = false /\
  F32.leb MIN_COLOR_TEMPERATURE (ct_of 700 700) = true /\
  F32.leb (ct_of 700 700) MAX_COLOR_TEMPERATURE = true /\
  ct_of 700 700 = F32.of_Z 5201 /\
  F32.ltb MAX_ILLUMINANCE
    (lux_of short_exposure_behind_glass 700 700 700) = true /\
  snd (convert short_exposure_behind_glass 700 700 700 700) = F32.nan /\
  snd (convert short_exposure_behind_glass 700 700 700 700)
    <> ct_of 700 700.
Proof.
  vm_compute.
  repeat split; discriminate.
Qed.

(** ** Facts checked on every register value *)

Lemma all_uint8_complete (z : Z) : is_uint8 z -> In z all_uint8.
Proof.
  intros [Hlo Hhi]. unfold all_uint8.
  apply in_map_iff. exists (Z.to_nat z). split.
  - apply Z2Nat.id. exact Hlo.
  - apply in_seq. lia.
Qed.

Lemma forall_uint8 (P : Z -> bool) :
  forallb P all_uint8 = true -> forall z, is_uint8 z -> P z = true.
Proof.
  intros H z Hz.
  exact (proj1 (forallb_forall P all_uint8) H z (all_uint8_complete z Hz)).
Qed.

Lemma sat_spec_check_all : forallb sat_spec_check all_uint8 = true.
Proof. vm_compute. reflexivity. Qed.

Lemma roundtrip_check_all : forallb roundtrip_check all_uint8 = true.
Proof. vm_compute. reflexivity. Qed.

Lemma represents_spec (x : F32.t) (q : Q) :
  represents x q = true -> exists v, F32.to_Q x = Some v /\ (v == q)%Q.
Proof.
  unfold represents. destruct (F32.to_Q x) as [v |]; [| discriminate].
  intros H. exists v. split; [reflexivity |]. apply Qeq_bool_iff. exact H.
Qed.

(** C4. For every integration register value the threshold the channels
    are compared with is exactly [1024 * (256 - integration_reg)] when
    [256 - integration_reg <= 63] and 65535 otherwise, and exactly three
    quarters of that value when the integration time is below 150 ms. *)
Theorem sat_threshold_value (st : TCS34725Component) :
  is_uint8 (integration_reg_ st) ->
  exists v,
    F32.to_Q (sat_threshold st) = Some v /\
    (v == sat_spec (integration_reg_ st)
            (F32.ltb (integration_time_ st) (F32.of_Z 150)))%Q.
Proof.
  intros Hreg.
  pose proof (forall_uint8 _ sat_spec_check_all _ Hreg) as H.
  unfold sat_spec_check in H. apply andb_true_iff in H.
  destruct H as [Hfull Hred].
  unfold sat_threshold.
  destruct (F32.ltb (integration_time_ st) (F32.of_Z 150)).
  - apply represents_spec. exact Hred.
  - apply represents_spec. exact Hfull.
Qed.

Lemma sat_threshold_value_witness :
  exists v,
    F32.to_Q (sat_threshold short_exposure) = Some v /\
    (v == sat_spec 255 true)%Q.
Proof.
  apply (sat_threshold_value short_exposure).
  unfold is_uint8. vm_compute. split; discriminate.
Defined.

(** C9. For every register value in [0, 255], the milliseconds
    [(256 - reg) * 2.4] converted back with [(uint8_t) (256 - ms / 2.4)]
    give a register value, and it is at most one step away from [reg]. *)
Theorem integration_reg_roundtrip (reg : Z) :
  is_uint8 reg ->
  exists reg',
    integration_reg_from_ms (ms_from_integration_reg reg) = Some reg' /\
    Z.abs (reg' - reg) <= 1.
Proof.
  intros Hreg.
  pose proof (forall_uint8 _ roundtrip_check_all _ Hreg) as H.
  unfold roundtrip_check in H.
  destruct (integration_reg_from_ms (ms_from_integration_reg reg))
    as [reg' |]; [| discriminate].
  exists reg'. split; [reflexivity |].
  apply andb_true_iff in H. destruct H as [H1 H2].
  apply Z.leb_le in H1. apply Z.leb_le in H2. lia.
Qed.

Lemma integration_reg_roundtrip_witness :
  exists reg',
    integration_reg_from_ms (ms_from_integration_reg 4) = Some reg' /\
    Z.abs (reg' - 4) <= 1.
Proof.
  apply (integration_reg_roundtrip 4).
  unfold is_uint8. lia.
Defined.

(** The round trip is not the identity: the register value 4 comes back
    as 3. *)
Lemma integration_reg_roundtrip_one_step_off :
  integration_reg_from_ms (ms_from_integration_reg 4) = Some 3.
Proof. vm_compute. reflexivity. Qed.

(** ** Exposure control: the gain step *)

(** An integration time above 600 ms is not below 200 ms. *)
Lemma above_600_not_below_200 (t : F32.t) :
  F32.ltb (F32.of_Z 600) t = true -> F32.ltb t (F32.of_Z 200) = false.
Proof.
  change (F32.of_Z 600) with (S754_finite false 9830400 (-14)).
  change (F32.of_Z 200) with (S754_finite false 13107200 (-16)).
  unfold F32.ltb, SFltb.
  destruct t as [s | s | | s m e]; cbn [SFcompare]; try discriminate.
  - destruct s; [discriminate | reflexivity].
  - destruct s; [discriminate |].
    destruct (Z.compare_spec (-14) e) as [E | L | G].
    + subst e. intros _. reflexivity.
    + intros _.
      destruct (Z.compare_spec e (-16)) as [E' | L' | G'];
        try reflexivity; lia.
    + discriminate.
Qed.

Lemma gain_steps_exclusive (raw_c : Z) (st : TCS34725Component) :
  gain_increases raw_c st = true -> gain_decreases raw_c st = false.
Proof.
  unfold gain_increases, gain_decreases, gain_up_cond, gain_down_cond.
  intros H.
  apply andb_true_iff in H. destruct H as [_ H].
  apply andb_true_iff in H. destruct H as [_ H].
  rewrite (above_600_not_below_200 _ H).
  rewrite !andb_false_r. reflexivity.
Qed.

(** C7. In an automatic cycle at most one of the two gain steps applies
    (the increase, with the ideal time divided by 4, is tested first; the
    decrease, with the ideal time multiplied by 4, second), so the two
    tests of the source act as the increase-else-decrease of the
    specification; and a gain register in [0, 3] stays in [0, 3]. *)
Theorem gain_step_once_and_in_range (raw_c : Z) (st : TCS34725Component) :
  0 <= gain_reg_ st <= 3 ->
  (gain_increases raw_c st && gain_decreases raw_c st = false) /\
  adjust_gain raw_c st = adjust_gain_spec raw_c st /\
  0 <= fst (adjust_gain raw_c st) <= 3.
Proof.
  intros Hg.
  assert (Hex : gain_increases raw_c st && gain_decreases raw_c st = false).
  { destruct (gain_increases raw_c st) eqn:Hi; [| reflexivity].
    rewrite (gain_steps_exclusive raw_c st Hi). reflexivity. }
  assert (Heq : adjust_gain raw_c st = adjust_gain_spec raw_c st).
  { unfold adjust_gain, adjust_gain_spec.
    destruct (gain_increases raw_c st) eqn:Hi.
    - rewrite (gain_steps_exclusive raw_c st Hi).
      unfold gain_increases in Hi. apply andb_true_iff in Hi.
      destruct Hi as [Hlt _]. apply Z.ltb_lt in Hlt.
      unfold wrap8. rewrite Z.mod_small by lia. reflexivity.
    - destruct (gain_decreases raw_c st) eqn:Hd; [| reflexivity].
      unfold gain_decreases in Hd. apply andb_true_iff in Hd.
      destruct Hd as [Hlt _]. apply Z.ltb_lt in Hlt.
      unfold wrap8. rewrite Z.mod_small by lia. reflexivity. }
  split; [exact Hex |]. split; [exact Heq |].
  rewrite Heq. unfold adjust_gain_spec.
  destruct (gain_increases raw_c st) eqn:Hi.
  - unfold gain_increases in Hi. apply andb_true_iff in Hi.
    destruct Hi as [Hlt _]. apply Z.ltb_lt in Hlt. cbn [fst]. lia.
  - destruct (gain_decreases raw_c st) eqn:Hd; cbn [fst]; [| lia].
    unfold gain_decreases in Hd. apply andb_true_iff in Hd.
    destruct Hd as [Hlt _]. apply Z.ltb_lt in Hlt. lia.
Qed.

Lemma gain_step_once_and_in_range_witness :
  (gain_increases 6553 long_exposure
   && gain_decreases 6553 long_exposure = false) /\
  adjust_gain 6553 long_exposure = adjust_gain_spec 6553 long_exposure /\
  0 <= fst (adjust_gain 6553 long_exposure) <= 3.
Proof.
  apply (gain_step_once_and_in_range 6553 long_exposure).
  vm_compute. split; discriminate.
Defined.

(** The examples of the specification: at 700 ms and 10 % of full scale
    the gain register goes from 0 to 1 and the ideal time is a quarter of
    [60 / 10 * 700]. *)
Lemma gain_increase_example :
  gain_increases 6553 long_exposure = true /\
  fst (adjust_gain 6553 long_exposure) = 1 /\
  snd (adjust_gain 6553 long_exposure)
  = F32.div (integration_time_ideal0 6553 long_exposure) (F32.of_Z 4).
Proof. vm_compute. repeat split. Qed.

(** ** Exposure control: clamping and quantisation *)

Lemma max_integration_time_is_614_4 :
  MAX_INTEGRATION_TIME = F32.lit 6144 10.
Proof. vm_compute. reflexivity. Qed.

(** The two tests of the source clamp as the specification says. *)
Lemma saturate_integration_time_clamps (t : F32.t) :
  saturate_integration_time t = clamp_spec t.
Proof.
  unfold saturate_integration_time, clamp_spec, MIN_INTEGRATION_TIME.
  rewrite max_integration_time_is_614_4.
  destruct (F32.ltb t (F32.of_Z 154)); [reflexivity |].
  destruct (F32.ltb (F32.lit 6144 10) t); reflexivity.
Qed.



(** ** Exposure control: a failed write *)

Lemma calculate_keeps_settings (r g b c : Z) (st : TCS34725Component) :
  settings_of (calculate_temperature_and_lux_ r g b c st) = settings_of st.
Proof.
  unfold calculate_temperature_and_lux_.
  repeat match goal with
         | |- context [if ?x then _ else _] => destruct x
         end; reflexivity.
Qed.

Lemma measure_and_publish_keeps_settings
    (r g b c : Z) (st : TCS34725Component) :
  settings_of (measure_and_publish r g b c st) = settings_of st.
Proof.
  unfold measure_and_publish.
  destruct (c =? 0).
  - cbv zeta iota beta.
    match goal with
    | |- context [calculate_temperature_and_lux_ r g b c ?s] =>
        pose proof (calculate_keeps_settings r g b c s) as K
    end.
    destruct (illuminance_sensor_ _), (color_temperature_sensor_ _);
      match goal with
      | |- context [if ?x then _ else _] => destruct x
      end; try exact K; reflexivity.
  - cbv zeta iota beta.
    match goal with
    | |- context [calculate_temperature_and_lux_ r g b c ?s] =>
        pose proof (calculate_keeps_settings r g b c s) as K
    end.
    destruct (illuminance_sensor_ _), (color_temperature_sensor_ _);
      match goal with
      | |- context [if ?x then _ else _] => destruct x
      end; try exact K; reflexivity.
Qed.

Lemma set_gain_settings (gain : Z) (st : TCS34725Component) :
  settings_of (set_gain gain st)
  = (integration_reg_ st, gain, integration_time_ st,
     integration_time_auto_ st)
  /\ failed_ (set_gain gain st) = failed_ st.
Proof.
  unfold set_gain.
  repeat match goal with
         | |- context [match ?x with _ => _ end] => destruct x
         end; split; reflexivity.
Qed.

Lemma adjust_gain_settings (raw_c : Z) (s1 s2 : TCS34725Component) :
  settings_of s1 = settings_of s2 ->
  adjust_gain raw_c s1 = adjust_gain raw_c s2.
Proof.
  unfold settings_of. intros H. injection H as Hr Hg Ht Ha.
  unfold adjust_gain, gain_increases, gain_decreases, gain_up_cond,
    gain_down_cond, integration_time_ideal0.
  rewrite Hg, Ht. reflexivity.
Qed.

(** The automatic adjustment when the settings change and a write fails:
    the registers hold the new values, the cached time the old one. *)
Lemma auto_adjust_failed_write
    (bus : Bus) (raw_c : Z) (st : TCS34725Component) (regval : Z) :
  proposed_integration_reg (snd (adjust_gain raw_c st)) = Some regval ->
  regval <> integration_reg_ st
  \/ fst (adjust_gain raw_c st) <> gain_reg_ st ->
  write_register_ok bus TCS34725_REGISTER_ATIME regval = false
  \/ write_register_ok bus TCS34725_REGISTER_CONTROL
       (fst (adjust_gain raw_c st)) = false ->
  exists st',
    auto_adjust bus raw_c st = Some st' /\
    settings_of st'
    = (regval, fst (adjust_gain raw_c st), integration_time_ st,
       integration_time_auto_ st) /\
    failed_ st' = true.
Proof.
  unfold auto_adjust, proposed_integration_reg.
  destruct (adjust_gain raw_c st) as [gain_new ideal]. cbn [fst snd].
  intros Hreg Hdiff Hfail. rewrite Hreg.
  assert (Hc : negb (integration_reg_ st =? regval)
               || negb (gain_new =? gain_reg_ st) = true).
  { apply orb_true_iff. destruct Hdiff as [H | H].
    - left. apply negb_true_iff. apply Z.eqb_neq. congruence.
    - right. apply negb_true_iff. apply Z.eqb_neq. exact H. }
  rewrite Hc.
  set (s := set_gain gain_new _).
  destruct (set_gain_settings gain_new
              (set_gain_reg_ gain_new (set_integration_reg_ regval st)))
    as [Hs Hf].
  fold s in Hs, Hf.
  assert (Hr : integration_reg_ s = regval) by (injection Hs; auto).
  assert (Hg : gain_reg_ s = gain_new) by (injection Hs; auto).
  rewrite Hr, Hg.
  assert (Hw : negb (write_register_ok bus TCS34725_REGISTER_ATIME regval)
               || negb (write_register_ok bus TCS34725_REGISTER_CONTROL
                          gain_new) = true).
  { apply orb_true_iff.
    destruct Hfail as [H | H]; rewrite H; auto. }
  rewrite Hw.
  exists (mark_failed s). split; [reflexivity |]. split; [| reflexivity].
  exact Hs.
Qed.

(** C2, as the code has it.  In an automatic cycle in which the proposed
    settings differ from the current ones and the write of a register
    fails, the cached integration time in milliseconds keeps its previous
    value, while the integration register and the gain register already
    hold the proposed values, and the component is marked as failed. *)
Theorem failed_write_keeps_cached_time_only
    (bus : Bus) (st : TCS34725Component) (d0 d1 d2 d3 d4 d5 d6 d7 : Z)
    (regval : Z) :
  read_crgb bus = Some [d0; d1; d2; d3; d4; d5; d6; d7] ->
  integration_time_auto_ st = true ->
  proposed_integration_reg (snd (adjust_gain (le16 d0 d1) st))
  = Some regval ->
  regval <> integration_reg_ st
  \/ fst (adjust_gain (le16 d0 d1) st) <> gain_reg_ st ->
  write_register_ok bus TCS34725_REGISTER_ATIME regval = false
  \/ write_register_ok bus TCS34725_REGISTER_CONTROL
       (fst (adjust_gain (le16 d0 d1) st)) = false ->
  exists st',
    update bus st = Some st' /\
    integration_time_ st' = integration_time_ st /\
    integration_reg_ st' = regval /\
    gain_reg_ st' = fst (adjust_gain (le16 d0 d1) st) /\
    failed_ st' = true.
Proof.
  intros Hread Hauto Hreg Hdiff Hfail.
  unfold update. rewrite Hread. cbv zeta.
  set (raw_c := le16 d0 d1) in *.
  set (s := measure_and_publish (le16 d2 d3) (le16 d4 d5) (le16 d6 d7)
              raw_c st).
  pose proof (measure_and_publish_keeps_settings
                (le16 d2 d3) (le16 d4 d5) (le16 d6 d7) raw_c st) as K.
  fold s in K.
  pose proof (adjust_gain_settings raw_c s st K) as A.
  unfold settings_of in K. injection K as Kr Kg Kt Ka.
  rewrite Ka, Hauto.
  destruct (auto_adjust_failed_write bus raw_c s regval)
    as (st' & Hst' & Hset & Hf).
  - rewrite A. exact Hreg.
  - rewrite A, Kr, Kg. exact Hdiff.
  - rewrite A. exact Hfail.
  - rewrite Hst'. exists (set_status_warning_ false st').
    unfold settings_of in Hset. injection Hset as Sr Sg St Sa.
    split; [reflexivity |].
    split; [exact (eq_trans St Kt) |].
    split; [exact Sr |].
    split; [rewrite <- A; exact Sg | exact Hf].
Qed.

Lemma failed_write_keeps_cached_time_only_witness :
  exists st',
    update bus_write_fails auto_exposure_start = Some st' /\
    integration_time_ st' = integration_time_ auto_exposure_start /\
    integration_reg_ st' = 4 /\
    gain_reg_ st' = fst (adjust_gain (le16 0x10 0x27) auto_exposure_start) /\
    failed_ st' = true.
Proof.
  apply (failed_write_keeps_cached_time_only bus_write_fails
           auto_exposure_start 0x10 0x27 0 0 0 0 0 0 4).
  - reflexivity.
  - reflexivity.
  - vm_compute. reflexivity.
  - left. vm_compute. discriminate.
  - left. reflexivity.
Defined.

(** C2 as it is stated fails: starting automatic mode at register 192
    (153.6 ms) with a clear count of 10000, the controller proposes
    register 4; every write fails, and after the cycle the integration
    register is 4, not 192.  Only the cached time is still 153.6 ms. *)
Lemma failed_write_advances_integration_reg :
  read_crgb bus_write_fails = Some [0x10; 0x27; 0; 0; 0; 0; 0; 0] /\
  le16 0x10 0x27 = 10000 /\
  integration_time_auto_ auto_exposure_start = true /\
  integration_reg_ auto_exposure_start = 192 /\
  proposed_integration_reg
    (snd (adjust_gain 10000 auto_exposure_start)) = Some 4 /\
  write_register_ok bus_write_fails TCS34725_REGISTER_ATIME 4 = false /\
  option_map integration_reg_ (update bus_write_fails auto_exposure_start)
  = Some 4 /\
  option_map integration_reg_ (update bus_write_fails auto_exposure_start)
  <> Some (integration_reg_ auto_exposure_start) /\
  option_map integration_time_ (update bus_write_fails auto_exposure_start)
  = Some (integration_time_ auto_exposure_start).
Proof.
  vm_compute. repeat split. discriminate.
Qed.

(** After such a cycle the controller does not try again: with the same
    clear count it proposes the register it already stored, issues no
    write although the bus now works, and the cached time stays at the
    old 153.6 ms next to register 4. *)
Lemma no_retry_after_failed_write :
  match update bus_write_fails auto_exposure_start with
  | Some st' => option_map settings_of (update bus_write_succeeds st')
  | None => None
  end = Some (4, 0, ms_from_integration_reg 192, true).
Proof. vm_compute. reflexivity. Qed.

(** ** Rounding: the shift of the mantissa *)

Lemma digits2_pos_bounds (p : positive) :
  2 ^ (Zpos (digits2_pos p) - 1) <= Zpos p < 2 ^ Zpos (digits2_pos p).
Proof.
  induction p as [p IH | p IH |]; cbn [digits2_pos].
  - rewrite Pos2Z.inj_succ.
    replace (Z.succ (Zpos (digits2_pos p)) - 1)
      with (Z.succ (Zpos (digits2_pos p) - 1)) by lia.
    rewrite !Z.pow_succ_r by lia. lia.
  - rewrite Pos2Z.inj_succ.
    replace (Z.succ (Zpos (digits2_pos p)) - 1)
      with (Z.succ (Zpos (digits2_pos p) - 1)) by lia.
    rewrite !Z.pow_succ_r by lia. lia.
  - cbn. lia.
Qed.

(** The number of digits is determined by the two powers around. *)
Lemma digits2_pos_unique (p : positive) (k : Z) :
  2 ^ (k - 1) <= Zpos p < 2 ^ k -> Zpos (digits2_pos p) = k.
Proof.
  intros [Hlo Hhi].
  destruct (digits2_pos_bounds p) as [Dlo Dhi].
  assert (0 < k).
  { destruct (Z.ltb_spec 0 k) as [L | G]; [exact L |].
    assert (2 ^ k <= 2 ^ 0) by (apply Z.pow_le_mono_r; lia).
    change (2 ^ 0) with 1 in *. lia. }
  assert (k - 1 < Zpos (digits2_pos p)).
  { apply (Z.pow_lt_mono_r_iff 2); lia. }
  assert (Zpos (digits2_pos p) - 1 < k).
  { apply (Z.pow_lt_mono_r_iff 2); lia. }
  lia.
Qed.

Lemma shr_1_halves (mrs : shr_record) :
  0 <= shr_m mrs -> shr_m (shr_1 mrs) = shr_m mrs / 2.
Proof.
  destruct mrs as [m r s]. cbn [shr_m shr_1].
  destruct m as [| [p | p |] | p]; intros H; cbn [shr_m]; try lia.
  - reflexivity.
  - rewrite Pos2Z.inj_xI. Z.div_mod_to_equations. lia.
  - rewrite Pos2Z.inj_xO. Z.div_mod_to_equations. lia.
  - reflexivity.
Qed.

Lemma iter_shr_1_divides (p : positive) (mrs : shr_record) :
  0 <= shr_m mrs ->
  shr_m (iter_pos shr_1 p mrs) = shr_m mrs / 2 ^ Zpos p.
Proof.
  revert mrs. induction p as [p IH | p IH |]; intros mrs H; cbn [iter_pos].
  - assert (H1 : 0 <= shr_m (shr_1 mrs)).
    { rewrite shr_1_halves by exact H. apply Z.div_pos; lia. }
    assert (H2 : 0 <= shr_m (iter_pos shr_1 p (shr_1 mrs))).
    { rewrite IH by exact H1. apply Z.div_pos; [exact H1 |].
      apply Z.pow_pos_nonneg; lia. }
    rewrite IH by exact H2. rewrite IH by exact H1.
    rewrite shr_1_halves by exact H.
    assert (P : 0 < 2 ^ Zpos p) by (apply Z.pow_pos_nonneg; lia).
    rewrite !Z.div_div by lia.
    f_equal. rewrite <- Z.pow_add_r by lia.
    rewrite <- Z.pow_succ_r by lia. f_equal. lia.
  - assert (H2 : 0 <= shr_m (iter_pos shr_1 p mrs)).
    { rewrite IH by exact H. apply Z.div_pos; [exact H |].
      apply Z.pow_pos_nonneg; lia. }
    rewrite IH by exact H2. rewrite IH by exact H.
    assert (P : 0 < 2 ^ Zpos p) by (apply Z.pow_pos_nonneg; lia).
    rewrite Z.div_div by lia.
    f_equal. rewrite <- Z.pow_add_r by lia. f_equal. lia.
  - rewrite shr_1_halves by exact H. reflexivity.
Qed.

(** The mantissa and the exponent after [shr]. *)
Lemma shr_spec (mrs : shr_record) (e n : Z) :
  0 <= shr_m mrs ->
  shr_m (fst (shr mrs e n)) = shr_m mrs / 2 ^ Z.max 0 n /\
  snd (shr mrs e n) = e + Z.max 0 n.
Proof.
  intros H. destruct n as [| p | p]; cbn [shr fst snd].
  - change (Z.max 0 0) with 0. rewrite Z.pow_0_r, Z.div_1_r. lia.
  - replace (Z.max 0 (Zpos p)) with (Zpos p) by lia.
    split; [apply iter_shr_1_divides; exact H | reflexivity].
  - replace (Z.max 0 (Zneg p)) with 0 by lia.
    rewrite Z.pow_0_r, Z.div_1_r. lia.
Qed.

Lemma round_nearest_even_bounds (m : Z) (l : location) :
  m <= round_nearest_even m l <= m + 1.
Proof.
  unfold round_nearest_even.
  destruct l as [| [| |]]; try lia.
  destruct (Z.even m); lia.
Qed.

Lemma fexp32 (e : Z) : fexp 24 128 e = Z.max (e - 24) (-149).
Proof. reflexivity. Qed.

(** Rounding a positive number that is at least the single precision
    number [c * 2^ec] gives at least that number. *)
Lemma binary_round_aux_at_least (M c : positive) (ez ec : Z) :
  2 ^ 23 <= Zpos c < 2 ^ 24 -> -149 <= ec -> ez <= ec ->
  Zpos c * 2 ^ (ec - ez) <= Zpos M ->
  at_least c ec (binary_round_aux 24 128 false (Zpos M) ez loc_Exact).
Proof.
  intros Hc Hec Hez HM.
  destruct (digits2_pos_bounds M) as [Dlo Dhi].
  set (d := Zpos (digits2_pos M)) in *.
  assert (Pk : 0 < 2 ^ (ec - ez)) by (apply Z.pow_pos_nonneg; lia).
  assert (Hd : 24 + ec - ez <= d).
  { assert (2 ^ (23 + ec - ez) < 2 ^ d).
    { replace (23 + ec - ez) with (23 + (ec - ez)) by lia.
      rewrite Z.pow_add_r by lia. nia. }
    assert (23 + ec - ez < d) by (apply (Z.pow_lt_mono_r_iff 2); lia).
    lia. }
  assert (Pn : 0 < 2 ^ (d - 24)) by (apply Z.pow_pos_nonneg; lia).
  assert (Hsplit : 2 ^ (d - 1) = 2 ^ (d - 24) * 2 ^ 23).
  { rewrite <- Z.pow_add_r by lia. f_equal. lia. }
  assert (Hsplit' : 2 ^ d = 2 ^ (d - 24) * 2 ^ 24).
  { rewrite <- Z.pow_add_r by lia. f_equal. lia. }
  set (m' := Zpos M / 2 ^ (d - 24)).
  assert (Hm'lo : 2 ^ 23 <= m').
  { apply Z.div_le_lower_bound; lia. }
  assert (Hm'hi : m' < 2 ^ 24).
  { apply Z.div_lt_upper_bound; lia. }
  assert (Hm'c : d - 24 = ec - ez -> Zpos c <= m').
  { intros E. unfold m'. rewrite E.
    apply Z.div_le_lower_bound; lia. }
  unfold binary_round_aux, shr_fexp. cbn [Zdigits2]. fold d.
  rewrite fexp32.
  replace (Z.max (d + ez - 24) (-149)) with (d + ez - 24) by lia.
  pose proof (shr_spec (shr_record_of_loc (Zpos M) loc_Exact) ez
                (d + ez - 24 - ez)) as S1.
  destruct (shr (shr_record_of_loc (Zpos M) loc_Exact) ez
              (d + ez - 24 - ez)) as [mrs1 e1].
  cbn [fst snd shr_record_of_loc shr_m] in S1.
  destruct S1 as [Sm Se]; [lia |].
  replace (Z.max 0 (d + ez - 24 - ez)) with (d - 24) in Sm, Se by lia.
  fold m' in Sm.
  assert (Hr : m' <= round_nearest_even (shr_m mrs1)
                       (loc_of_shr_record mrs1) <= m' + 1).
  { rewrite <- Sm. apply round_nearest_even_bounds. }
  destruct (round_nearest_even (shr_m mrs1) (loc_of_shr_record mrs1))
    as [| q | q]; try lia.
  cbn [Zdigits2].
  assert (Hq : Zpos q < 2 ^ 24 \/ Zpos q = 2 ^ 24) by lia.
  destruct Hq as [Hq | Hq].
  - (* the rounded mantissa still has 24 digits *)
    rewrite (digits2_pos_unique q 24) by (change (24 - 1) with 23; lia).
    rewrite fexp32.
    replace (Z.max (24 + e1 - 24) (-149) - e1) with 0 by lia.
    cbn [shr shr_record_of_loc shr_m].
    destruct (e1 <=? 128 - 24); [right | left; reflexivity].
    exists q, e1. split; [reflexivity |].
    destruct (Z.eq_dec (d - 24) (ec - ez)) as [E | N].
    + right. split; [lia |]. specialize (Hm'c E).
      apply Pos2Z.pos_le_pos. lia.
    + left. lia.
  - (* the rounding carried into a 25th digit *)
    rewrite (digits2_pos_unique q 25) by (change (25 - 1) with 24; lia).
    rewrite fexp32.
    replace (Z.max (25 + e1 - 24) (-149) - e1) with 1 by lia.
    assert (Eq : q = 16777216%positive).
    { apply Pos2Z.inj. rewrite Hq. reflexivity. }
    subst q.
    cbn [shr shr_record_of_loc shr_m iter_pos shr_1].
    destruct (e1 + 1 <=? 128 - 24); [right | left; reflexivity].
    eexists. exists (e1 + 1). split; [reflexivity |].
    left. lia.
Qed.

Lemma binary_round_at_least (M c : positive) (ez ec : Z) :
  2 ^ 23 <= Zpos c < 2 ^ 24 -> -149 <= ec -> ez <= ec ->
  Zpos c * 2 ^ (ec - ez) <= Zpos M ->
  at_least c ec (binary_round 24 128 false M ez).
Proof.
  intros Hc Hec Hez HM.
  pose proof (binary_round_aux_at_least M c ez ec Hc Hec Hez HM) as A.
  destruct (digits2_pos_bounds M) as [Dlo Dhi].
  assert (Pk : 0 < 2 ^ (ec - ez)) by (apply Z.pow_pos_nonneg; lia).
  assert (Hd : 24 + ec - ez <= Zpos (digits2_pos M)).
  { assert (2 ^ (23 + ec - ez) < 2 ^ Zpos (digits2_pos M)).
    { replace (23 + ec - ez) with (23 + (ec - ez)) by lia.
      rewrite Z.pow_add_r by lia. nia. }
    assert (23 + ec - ez < Zpos (digits2_pos M))
      by (apply (Z.pow_lt_mono_r_iff 2); lia).
    lia. }
  unfold binary_round. rewrite fexp32. unfold shl_align.
  destruct (Z.max (Zpos (digits2_pos M) + ez - 24) (-149) - ez)
    as [| p | p] eqn:En; try lia; exact A.
Qed.

Lemma binary_round_aux_not_negative (mx ex : Z) (lx : location) :
  0 <= mx ->
  not_negative (binary_round_aux 24 128 false mx ex lx) = true.
Proof.
  intros H. unfold binary_round_aux, shr_fexp.
  set (n1 := fexp 24 128 (Zdigits2 mx + ex) - ex).
  assert (H0 : 0 <= shr_m (shr_record_of_loc mx lx)).
  { destruct lx as [| [| |]]; exact H. }
  pose proof (shr_spec (shr_record_of_loc mx lx) ex n1 H0) as [Sm _].
  destruct (shr (shr_record_of_loc mx lx) ex n1) as [mrs1 e1].
  cbn [fst] in Sm.
  assert (H1 : 0 <= shr_m mrs1).
  { rewrite Sm. apply Z.div_pos; [exact H0 |].
    apply Z.pow_pos_nonneg; lia. }
  pose proof (round_nearest_even_bounds (shr_m mrs1)
                (loc_of_shr_record mrs1)) as Hr.
  set (m1 := round_nearest_even (shr_m mrs1) (loc_of_shr_record mrs1)) in *.
  set (n2 := fexp 24 128 (Zdigits2 m1 + e1) - e1).
  assert (H2 : 0 <= shr_m (shr_record_of_loc m1 loc_Exact)).
  { cbn [shr_record_of_loc shr_m]. lia. }
  pose proof (shr_spec (shr_record_of_loc m1 loc_Exact) e1 n2 H2) as [Sm2 _].
  destruct (shr (shr_record_of_loc m1 loc_Exact) e1 n2) as [mrs2 e2].
  cbn [fst] in Sm2.
  assert (H3 : 0 <= shr_m mrs2).
  { rewrite Sm2. apply Z.div_pos; [exact H2 |].
    apply Z.pow_pos_nonneg; lia. }
  destruct (shr_m mrs2) as [| q | q]; try lia; try reflexivity.
  destruct (e2 <=? 128 - 24); reflexivity.
Qed.

Lemma of_Z_not_negative (z : Z) :
  0 <= z -> not_negative (F32.of_Z z) = true.
Proof.
  intros H. unfold F32.of_Z, binary_normalize.
  destruct z as [| p | p]; try lia; [reflexivity |].
  unfold binary_round.
  destruct (shl_align p 0 _) as [mz ez].
  apply binary_round_aux_not_negative. lia.
Qed.

Lemma mul_not_negative (mx : positive) (ex : Z) (y : spec_float) :
  not_negative y = true ->
  not_negative (F32.mul (S754_finite false mx ex) y) = true.
Proof.
  unfold F32.mul.
  destruct y as [s | s | | s my ey]; cbn [SFmul not_negative xorb];
    try (intros H; exact H).
  intros H. apply negb_true_iff in H. subst s.
  apply binary_round_aux_not_negative. lia.
Qed.

Lemma div_not_negative (x : spec_float) (my : positive) (ey : Z) :
  not_negative x = true ->
  not_negative (F32.div x (S754_finite false my ey)) = true.
Proof.
  unfold F32.div.
  destruct x as [s | s | | s mx ex]; cbn [SFdiv not_negative];
    try (intros H; exact H).
  - intros H. rewrite xorb_false_r. exact H.
  - intros H. apply negb_true_iff in H. subst s.
    unfold SFdiv_core_binary.
    set (m' := match _ with Z0 => _ | Zpos _ => _ | Zneg _ => _ end).
    assert (Hm' : 0 <= m').
    { unfold m'. destruct (_ - _ - _) as [| p | p]; try lia.
      apply Z.shiftl_nonneg. lia. }
    pose proof (Z.div_pos m' (Zpos my) Hm' ltac:(lia)) as Hq.
    unfold Z.div in Hq.
    destruct (Z.div_eucl m' (Zpos my)) as [q r].
    apply binary_round_aux_not_negative. exact Hq.
Qed.

Lemma forall_from_spec (P : Z -> bool) (n : nat) :
  forall z, forall_from P z n = true ->
  forall k, z <= k < z + Z.of_nat n -> P k = true.
Proof.
  induction n as [| n IH]; intros z H k Hk.
  - cbn in Hk. lia.
  - cbn [forall_from] in H. apply andb_true_iff in H. destruct H as [H0 H1].
    destruct (Z.eq_dec k z) as [-> | N]; [exact H0 |].
    apply (IH (Z.succ z) H1). lia.
Qed.

Lemma positive_finite_counts :
  forall_from (fun r => positive_finite (F32.of_Z r)) 1 (Z.to_nat 65535)
  = true.
Proof. vm_compute. reflexivity. Qed.

Lemma of_Z_positive_finite (r : Z) :
  is_uint16 r -> r <> 0 -> positive_finite (F32.of_Z r) = true.
Proof.
  intros [Hlo Hhi] Hr.
  apply (forall_from_spec _ _ 1 positive_finite_counts). lia.
Qed.

(** ** The colour temperature is at least its offset *)

Lemma iter_xO_value (m d : positive) :
  Zpos (Pos.iter xO m d) = Zpos m * 2 ^ Zpos d.
Proof.
  induction d as [| d IH] using Pos.peano_ind.
  - cbn [Pos.iter]. rewrite Pos2Z.inj_xO, Z.pow_1_r. lia.
  - rewrite Pos.iter_succ, Pos2Z.inj_xO, IH, Pos2Z.inj_succ.
    rewrite Z.pow_succ_r by lia. lia.
Qed.

Lemma shl_align_value (m : positive) (e ez : Z) :
  ez <= e -> Zpos (fst (shl_align m e ez)) = Zpos m * 2 ^ (e - ez).
Proof.
  intros H. unfold shl_align.
  destruct (ez - e) as [| p | p] eqn:E; try lia; cbn [fst].
  - replace (e - ez) with 0 by lia. rewrite Z.pow_0_r. lia.
  - rewrite iter_xO_value. f_equal. f_equal. lia.
Qed.

Lemma add_offset_at_least (x : spec_float) :
  not_negative x = true ->
  at_least 11395072 (-13) (F32.add x CT_OFFSET).
Proof.
  change CT_OFFSET with (S754_finite false 11395072 (-13)).
  unfold F32.add.
  destruct x as [s | s | | s m e]; cbn [not_negative SFadd];
    try discriminate.
  - intros _. right. exists 11395072%positive, (-13).
    split; [reflexivity |]. right. split; [reflexivity |]. lia.
  - intros H. apply negb_true_iff in H. subst s. left. reflexivity.
  - intros H. apply negb_true_iff in H. subst s.
    cbn [cond_Zopp].
    set (ez := Z.min e (-13)).
    pose proof (shl_align_value m e ez ltac:(lia)) as Hm.
    pose proof (shl_align_value 11395072 (-13) ez ltac:(lia)) as Hc.
    destruct (shl_align m e ez) as [a ea].
    destruct (shl_align 11395072 (-13) ez) as [b eb].
    cbn [fst] in *.
    change (Zpos a + Zpos b) with (Zpos (a + b)).
    cbn [binary_normalize].
    apply binary_round_at_least.
    + cbn. lia.
    + lia.
    + lia.
    + rewrite Pos2Z.inj_add, Hc.
      assert (0 < Zpos m * 2 ^ (e - ez)).
      { apply Z.mul_pos_pos; [lia |]. apply Z.pow_pos_nonneg; lia. }
      lia.
Qed.

Lemma ct_of_at_least (r b : Z) :
  is_uint16 r -> is_uint16 b -> r <> 0 ->
  at_least 11395072 (-13) (ct_of r b).
Proof.
  intros Hr Hb Hr0. unfold ct_of.
  apply add_offset_at_least.
  pose proof (of_Z_positive_finite r Hr Hr0) as Hp.
  destruct (F32.of_Z r) as [s | s | | s mr er]; try discriminate.
  destruct s; [discriminate |].
  apply div_not_negative.
  change CT_COEF with (S754_finite false 15605760 (-12)).
  apply mul_not_negative.
  apply of_Z_not_negative. destruct Hb; lia.
Qed.

Lemma at_least_offset_comparisons (x : spec_float) :
  at_least 11395072 (-13) x ->
  F32.leb CT_OFFSET x = true /\ F32.ltb x MIN_COLOR_TEMPERATURE = false.
Proof.
  change CT_OFFSET with (S754_finite false 11395072 (-13)).
  change MIN_COLOR_TEMPERATURE with (S754_finite false 16384000 (-14)).
  unfold F32.leb, F32.ltb, SFleb, SFltb.
  intros [-> | (m & e & -> & H)]; [split; reflexivity |].
  cbn [SFcompare].
  destruct H as [H | [-> H]].
  - destruct (Z.compare_spec (-13) e) as [E | L | G]; try lia;
      destruct (Z.compare_spec e (-14)) as [E' | L' | G']; try lia;
      split; reflexivity.
  - split; [| reflexivity].
    rewrite Z.compare_refl.
    change (Pos.compare_cont Eq 11395072 m) with (11395072 ?= m)%positive.
    apply Pos.compare_le_iff in H.
    destruct (11395072 ?= m)%positive; try reflexivity. contradiction.
Qed.

(** C10. When the conversion reaches the colour temperature (red count
    not zero), the computed value [3810 * b / r + 1391] is at least 1391,
    so the test against the lower limit of 1000 never succeeds; an
    undefined colour temperature comes only from a zero clear count, a
    saturated channel, an illuminance above its limit, a zero red count,
    or a value above 15000. *)
Theorem color_temperature_never_too_low
    (st : TCS34725Component) (r g b c : Z) :
  is_uint16 r -> is_uint16 b ->
  (r <> 0 ->
   F32.leb CT_OFFSET (ct_of r b) = true /\
   F32.ltb (ct_of r b) MIN_COLOR_TEMPERATURE = false) /\
  (snd (convert st r g b c) = F32.nan ->
   c = 0 \/ any_saturated st r g b c = true \/
   F32.ltb MAX_ILLUMINANCE (lux_of st r g b) = true \/
   r = 0 \/
   F32.ltb MAX_COLOR_TEMPERATURE (ct_of r b) = true).
Proof.
  intros Hr Hb.
  assert (Hlow : r <> 0 ->
                 F32.leb CT_OFFSET (ct_of r b) = true /\
                 F32.ltb (ct_of r b) MIN_COLOR_TEMPERATURE = false).
  { intros Hr0. apply at_least_offset_comparisons.
    apply ct_of_at_least; assumption. }
  split; [exact Hlow |].
  destruct (Z.eq_dec c 0) as [Hc | Hc]; [left; exact Hc |].
  destruct (any_saturated st r g b c) eqn:Hs; [right; left; reflexivity |].
  rewrite (color_temperature_unsaturated st r g b c Hc Hs).
  destruct (F32.ltb MAX_ILLUMINANCE (lux_of st r g b));
    [intros _; right; right; left; reflexivity |].
  destruct (Z.eqb_spec r 0) as [Hr0 | Hr0];
    [intros _; right; right; right; left; exact Hr0 |].
  destruct (Hlow Hr0) as [Hleb Hltb]. rewrite Hltb.
  destruct (F32.ltb MAX_COLOR_TEMPERATURE (ct_of r b));
    [intros _; right; right; right; right; reflexivity |].
  intros Hnan. rewrite Hnan in Hleb. discriminate Hleb.
Qed.

Lemma color_temperature_never_too_low_witness :
  F32.leb CT_OFFSET (ct_of 4000 1000) = true /\
  F32.ltb (ct_of 4000 1000) MIN_COLOR_TEMPERATURE = false.
Proof.
  apply (color_temperature_never_too_low short_exposure 4000 5000 1000
           10000); unfold is_uint16; try lia.
Defined.

(** ** Rounding in the normal range *)

Lemma shr_record_of_loc_m (m : Z) (l : location) :
  shr_m (shr_record_of_loc m l) = m.
Proof. destruct l as [| [| |]]; reflexivity. Qed.

(** The result of rounding a mantissa of at least 24 digits whose rounded
    exponent is in the normal range: the mantissa shifted down to 24
    digits, or the next one, or, after a carry, the next power of two. *)
Lemma binary_round_aux_normal
    (sx : bool) (M : positive) (ez : Z) (l : location) :
  24 <= Zpos (digits2_pos M) ->
  -149 <= Zpos (digits2_pos M) + ez - 24 < 104 ->
  exists mR eR,
    binary_round_aux 24 128 sx (Zpos M) ez l = S754_finite sx mR eR /\
    2 ^ 23 <= Zpos mR < 2 ^ 24 /\
    ((eR = Zpos (digits2_pos M) + ez - 24 /\
      Zpos M / 2 ^ (Zpos (digits2_pos M) - 24) <= Zpos mR
      <= Zpos M / 2 ^ (Zpos (digits2_pos M) - 24) + 1) \/
     (eR = Zpos (digits2_pos M) + ez - 24 + 1 /\
      Zpos mR = 2 ^ 23 /\
      Zpos M / 2 ^ (Zpos (digits2_pos M) - 24) + 1 = 2 ^ 24)).
Proof.
  intros Hd He.
  destruct (digits2_pos_bounds M) as [Dlo Dhi].
  set (d := Zpos (digits2_pos M)) in *.
  assert (Pn : 0 < 2 ^ (d - 24)) by (apply Z.pow_pos_nonneg; lia).
  assert (Hsplit : 2 ^ (d - 1) = 2 ^ (d - 24) * 2 ^ 23).
  { rewrite <- Z.pow_add_r by lia. f_equal. lia. }
  assert (Hsplit' : 2 ^ d = 2 ^ (d - 24) * 2 ^ 24).
  { rewrite <- Z.pow_add_r by lia. f_equal. lia. }
  set (m' := Zpos M / 2 ^ (d - 24)).
  assert (Hm'lo : 2 ^ 23 <= m') by (apply Z.div_le_lower_bound; lia).
  assert (Hm'hi : m' < 2 ^ 24) by (apply Z.div_lt_upper_bound; lia).
  unfold binary_round_aux, shr_fexp. cbn [Zdigits2]. fold d.
  rewrite fexp32.
  replace (Z.max (d + ez - 24) (-149)) with (d + ez - 24) by lia.
  pose proof (shr_spec (shr_record_of_loc (Zpos M) l) ez
                (d + ez - 24 - ez)) as S1.
  destruct (shr (shr_record_of_loc (Zpos M) l) ez (d + ez - 24 - ez))
    as [mrs1 e1].
  cbn [fst snd] in S1. rewrite shr_record_of_loc_m in S1.
  destruct S1 as [Sm Se]; [lia |].
  replace (Z.max 0 (d + ez - 24 - ez)) with (d - 24) in Sm, Se by lia.
  fold m' in Sm.
  assert (Hr : m' <= round_nearest_even (shr_m mrs1)
                       (loc_of_shr_record mrs1) <= m' + 1).
  { rewrite <- Sm. apply round_nearest_even_bounds. }
  destruct (round_nearest_even (shr_m mrs1) (loc_of_shr_record mrs1))
    as [| q | q]; try lia.
  cbn [Zdigits2].
  assert (Hq : Zpos q < 2 ^ 24 \/ Zpos q = 2 ^ 24) by lia.
  destruct Hq as [Hq | Hq].
  - rewrite (digits2_pos_unique q 24) by (change (24 - 1) with 23; lia).
    rewrite fexp32.
    replace (Z.max (24 + e1 - 24) (-149) - e1) with 0 by lia.
    cbn [shr shr_record_of_loc shr_m].
    replace (e1 <=? 128 - 24) with true by (symmetry; apply Z.leb_le; lia).
    exists q, e1. split; [reflexivity |]. split; [lia |].
    left. split; lia.
  - rewrite (digits2_pos_unique q 25) by (change (25 - 1) with 24; lia).
    rewrite fexp32.
    replace (Z.max (25 + e1 - 24) (-149) - e1) with 1 by lia.
    assert (Eq : q = 16777216%positive).
    { apply Pos2Z.inj. rewrite Hq. reflexivity. }
    subst q.
    cbn [shr shr_record_of_loc shr_m iter_pos shr_1].
    replace (e1 + 1 <=? 128 - 24) with true
      by (symmetry; apply Z.leb_le; lia).
    eexists. exists (e1 + 1). split; [reflexivity |].
    split; [cbn; lia |].
    right. split; [lia |]. split; [reflexivity | lia].
Qed.

(** A mantissa of exactly 24 digits with no lost digits is kept. *)
Lemma binary_round_aux_exact
    (sx : bool) (M : positive) (ez : Z) :
  2 ^ 23 <= Zpos M < 2 ^ 24 -> -149 <= ez <= 104 ->
  binary_round_aux 24 128 sx (Zpos M) ez loc_Exact = S754_finite sx M ez.
Proof.
  intros HM He.
  unfold binary_round_aux, shr_fexp. cbn [Zdigits2].
  rewrite (digits2_pos_unique M 24) by (change (24 - 1) with 23; lia).
  rewrite fexp32.
  replace (Z.max (24 + ez - 24) (-149) - ez) with 0 by lia.
  cbn [shr shr_record_of_loc shr_m loc_of_shr_record round_nearest_even
       fst snd Zdigits2].
  rewrite (digits2_pos_unique M 24) by (change (24 - 1) with 23; lia).
  rewrite fexp32.
  replace (Z.max (24 + ez - 24) (-149) - ez) with 0 by lia.
  cbn [shr shr_record_of_loc shr_m].
  replace (ez <=? 128 - 24) with true by (symmetry; apply Z.leb_le; lia).
  reflexivity.
Qed.

(** ** The quantisation of a clamped time *)

(** The quotient of a time between 154 ms and 614.4 ms by 2.4 is a
    number between 64 and 256. *)
Lemma div_by_2_4 (m : positive) (e : Z) :
  2 ^ 23 <= Zpos m < 2 ^ 24 ->
  (e = -16 /\ 10092544 <= Zpos m) \/ e = -15
  \/ (e = -14 /\ Zpos m < 10066330) ->
  exists mq eq,
    F32.div (S754_finite false m e) (F32.lit 24 10)
    = S754_finite false mq eq /\
    2 ^ 23 <= Zpos mq < 2 ^ 24 /\
    ((eq = -17 /\ 8410452 <= Zpos mq) \/ eq = -16
     \/ (eq = -15 /\ Zpos mq = 2 ^ 23)).
Proof.
  intros Hm He.
  change (F32.lit 24 10) with (S754_finite false 10066330 (-22)).
  unfold F32.div, F32.prec, F32.emax, SFdiv. cbn [xorb].
  unfold SFdiv_core_binary. cbn [Zdigits2].
  rewrite (digits2_pos_unique m 24) by (change (24 - 1) with 23; lia).
  change (Zpos (digits2_pos 10066330)) with 24.
  change (2 ^ 23) with 8388608 in *. change (2 ^ 24) with 16777216 in *.
  assert (Hs : Z.shiftl (Zpos m) 24 = Zpos m * 16777216).
  { rewrite Z.shiftl_mul_pow2 by lia. reflexivity. }
  destruct He as [[-> Hlo] | [-> | [-> Hhi]]].
  - change (Z.min (fexp 24 128 (24 + -16 - (24 + -22))) (-16 - -22))
      with (-18).
    change (-16 - -22 - -18) with 24.
    cbv iota beta.
    pose proof (Z_div_mod (Z.shiftl (Zpos m) 24) 10066330 eq_refl) as D.
    destruct (Z.div_eucl (Z.shiftl (Zpos m) 24) 10066330) as [Q R].
    rewrite Hs in D. destruct D as [D1 D2].
    destruct Q as [| Qp | Qp]; try lia.
    assert (HQ : 2 ^ (25 - 1) <= Zpos Qp < 2 ^ 25).
    { change (2 ^ (25 - 1)) with 16777216.
      change (2 ^ 25) with 33554432. lia. }
    pose proof (digits2_pos_unique Qp 25 HQ) as DQ.
    destruct (binary_round_aux_normal false Qp (-18)
                (new_location 10066330 R))
      as (mR & eR & E & HR & C); [rewrite DQ; lia | rewrite DQ; lia |].
    exists mR, eR. split; [exact E |]. split; [exact HR |].
    rewrite DQ in C. change (2 ^ (25 - 24)) with 2 in C.
    change (2 ^ 24) with 16777216 in C.
    assert (HQlo : 16820905 <= Zpos Qp) by lia.
    assert (HQhi : Zpos Qp <= 27962025) by lia.
    left. destruct C as [[C1 C2] | [C1 [C2 C3]]].
    + split; [lia |]. Z.div_mod_to_equations. lia.
    + Z.div_mod_to_equations. lia.
  - change (Z.min (fexp 24 128 (24 + -15 - (24 + -22))) (-15 - -22))
      with (-17).
    change (-15 - -22 - -17) with 24.
    cbv iota beta.
    pose proof (Z_div_mod (Z.shiftl (Zpos m) 24) 10066330 eq_refl) as D.
    destruct (Z.div_eucl (Z.shiftl (Zpos m) 24) 10066330) as [Q R].
    rewrite Hs in D. destruct D as [D1 D2].
    destruct Q as [| Qp | Qp]; try lia.
    assert (HQ : 2 ^ (24 - 1) <= Zpos Qp < 2 ^ 24 \/
                 2 ^ (25 - 1) <= Zpos Qp < 2 ^ 25).
    { change (2 ^ (25 - 1)) with 16777216.
      change (2 ^ (24 - 1)) with 8388608.
      change (2 ^ 24) with 16777216.
      change (2 ^ 25) with 33554432. lia. }
    destruct HQ as [HQ | HQ].
    + pose proof (digits2_pos_unique Qp 24 HQ) as DQ.
      destruct (binary_round_aux_normal false Qp (-17)
                  (new_location 10066330 R))
        as (mR & eR & E & HR & C); [rewrite DQ; lia | rewrite DQ; lia |].
      exists mR, eR. split; [exact E |]. split; [exact HR |].
      rewrite DQ in C. change (2 ^ (24 - 24)) with 1 in C.
      rewrite Z.div_1_r in C.
      change (2 ^ 23) with 8388608 in *. change (2 ^ 24) with 16777216 in *.
      destruct C as [[C1 C2] | [C1 [C2 C3]]].
      * left. split; lia.
      * right. left. lia.
    + pose proof (digits2_pos_unique Qp 25 HQ) as DQ.
      destruct (binary_round_aux_normal false Qp (-17)
                  (new_location 10066330 R))
        as (mR & eR & E & HR & C); [rewrite DQ; lia | rewrite DQ; lia |].
      exists mR, eR. split; [exact E |]. split; [exact HR |].
      rewrite DQ in C. change (2 ^ (25 - 24)) with 2 in C.
      change (2 ^ 24) with 16777216 in C.
      change (2 ^ (25 - 1)) with 16777216 in HQ.
      change (2 ^ 25) with 33554432 in HQ.
      right. left. destruct C as [[C1 C2] | [C1 [C2 C3]]].
      * lia.
      * Z.div_mod_to_equations. lia.
  - change (Z.min (fexp 24 128 (24 + -14 - (24 + -22))) (-14 - -22))
      with (-16).
    change (-14 - -22 - -16) with 24.
    cbv iota beta.
    pose proof (Z_div_mod (Z.shiftl (Zpos m) 24) 10066330 eq_refl) as D.
    destruct (Z.div_eucl (Z.shiftl (Zpos m) 24) 10066330) as [Q R].
    rewrite Hs in D. destruct D as [D1 D2].
    destruct Q as [| Qp | Qp]; try lia.
    assert (HQ : 2 ^ (24 - 1) <= Zpos Qp < 2 ^ 24).
    { change (2 ^ (24 - 1)) with 8388608.
      change (2 ^ 24) with 16777216. lia. }
    pose proof (digits2_pos_unique Qp 24 HQ) as DQ.
    destruct (binary_round_aux_normal false Qp (-16)
                (new_location 10066330 R))
      as (mR & eR & E & HR & C); [rewrite DQ; lia | rewrite DQ; lia |].
    exists mR, eR. split; [exact E |]. split; [exact HR |].
    rewrite DQ in C. change (2 ^ (24 - 24)) with 1 in C.
    rewrite Z.div_1_r in C.
    change (2 ^ 23) with 8388608 in *.
    destruct C as [[C1 C2] | [C1 [C2 C3]]].
    + right. left. lia.
    + right. right. split; [lia | exact C2].
Qed.

Lemma pos_of_Z (z : Z) : 0 < z -> exists p, z = Zpos p.
Proof. destruct z as [| p | p]; try lia. intros _. exists p. reflexivity. Qed.

(** 256 less a quotient between 64 and 256 is a number between 0 and
    192 whose integer part is an 8-bit value, at most 191. *)
Lemma sub_from_256 (mq : positive) (eq : Z) :
  2 ^ 23 <= Zpos mq < 2 ^ 24 ->
  (eq = -17 /\ 8410452 <= Zpos mq) \/ eq = -16
  \/ (eq = -15 /\ Zpos mq = 2 ^ 23) ->
  not_negative (F32.sub (F32.of_Z 256) (S754_finite false mq eq)) = true /\
  exists reg,
    F32.to_uint8 (F32.sub (F32.of_Z 256) (S754_finite false mq eq))
    = Some reg /\ 0 <= reg <= 191.
Proof.
  intros Hm He.
  change (F32.of_Z 256) with (S754_finite false 8388608 (-15)).
  change (2 ^ 23) with 8388608 in *. change (2 ^ 24) with 16777216 in *.
  unfold F32.sub, F32.prec, F32.emax, SFsub. cbn [cond_Zopp].
  destruct He as [[-> Hlo] | [-> | [-> Heq]]].
  - (* quotient in [64, 128): the difference has 25 digits *)
    change (Z.min (-15) (-17)) with (-17).
    change (fst (shl_align 8388608 (-15) (-17))) with 33554432%positive.
    change (fst (shl_align mq (-17) (-17))) with mq.
    destruct (pos_of_Z (Zpos 33554432 - Zpos mq) ltac:(lia)) as [D HD].
    rewrite HD. cbn [binary_normalize]. unfold binary_round.
    assert (DD : Zpos (digits2_pos D) = 25).
    { apply digits2_pos_unique. change (2 ^ (25 - 1)) with 16777216.
      change (2 ^ 25) with 33554432. lia. }
    rewrite DD. change (fexp 24 128 (25 + -17)) with (-16).
    change (shl_align D (-17) (-16)) with (D, -17).
    destruct (binary_round_aux_normal false D (-17) loc_Exact)
      as (mR & eR & E & HR & C); [rewrite DD; lia | rewrite DD; lia |].
    rewrite E. split; [reflexivity |].
    rewrite DD in C. change (2 ^ (25 - 24)) with 2 in C.
    change (2 ^ 24) with 16777216 in C.
    assert (HeR : eR = -16 /\ Zpos mR <= 12571991).
    { destruct C as [[C1 C2] | [C1 [C2 C3]]];
        Z.div_mod_to_equations; lia. }
    destruct HeR as [-> HmR].
    unfold F32.to_uint8, F32.trunc. cbn [cond_Zopp].
    rewrite Z.shiftr_div_pow2 by lia. change (2 ^ 16) with 65536.
    assert (Hq : 0 <= Zpos mR / 65536 <= 191)
      by (Z.div_mod_to_equations; lia).
    replace ((0 <=? Zpos mR / 65536) && (Zpos mR / 65536 <=? 255))
      with true.
    + exists (Zpos mR / 65536). split; [reflexivity | exact Hq].
    + symmetry. apply andb_true_iff. split; apply Z.leb_le; lia.
  - (* quotient in [128, 256): the difference is exact *)
    change (Z.min (-15) (-16)) with (-16).
    change (fst (shl_align 8388608 (-15) (-16))) with 16777216%positive.
    change (fst (shl_align mq (-16) (-16))) with mq.
    destruct (pos_of_Z (Zpos 16777216 - Zpos mq) ltac:(lia)) as [D HD].
    rewrite HD. cbn [binary_normalize]. unfold binary_round.
    destruct (digits2_pos_bounds D) as [Dlo Dhi].
    set (d := Zpos (digits2_pos D)) in *.
    assert (Hd : 1 <= d <= 24).
    { split; [unfold d; lia |].
      assert (2 ^ (d - 1) < 2 ^ 24)
        by (change (2 ^ 24) with 16777216; lia).
      assert (d - 1 < 24) by (apply (Z.pow_lt_mono_r_iff 2); lia). lia. }
    rewrite fexp32.
    replace (Z.max (d + -16 - 24) (-149)) with (d - 40) by lia.
    assert (Hshift :
      exists S, shl_align D (-16) (d - 40) = (S, d - 40) /\
                Zpos S = Zpos D * 2 ^ (24 - d)).
    { unfold shl_align.
      destruct (d - 40 - -16) as [| p | p] eqn:Ep; try lia.
      - exists D. replace (d - 40) with (-16) by lia.
        split; [reflexivity |].
        replace (24 - d) with 0 by lia. rewrite Z.pow_0_r. lia.
      - exists (Pos.iter xO D p). split; [reflexivity |].
        rewrite iter_xO_value. f_equal. f_equal. lia. }
    destruct Hshift as (S & -> & HS).
    assert (P1 : 0 < 2 ^ (24 - d)) by (apply Z.pow_pos_nonneg; lia).
    assert (HSlo : 2 ^ 23 <= Zpos S).
    { rewrite HS. replace 23 with ((d - 1) + (24 - d)) by lia.
      rewrite Z.pow_add_r by lia. nia. }
    assert (HShi : Zpos S < 2 ^ 24).
    { rewrite HS. replace 24 with (d + (24 - d)) at 2 by lia.
      rewrite Z.pow_add_r by lia. nia. }
    rewrite (binary_round_aux_exact false S (d - 40)) by lia.
    split; [reflexivity |].
    unfold F32.to_uint8, F32.trunc. cbn [cond_Zopp].
    destruct (d - 40) as [| p | p] eqn:Ep; try lia.
    rewrite Z.shiftr_div_pow2 by lia.
    assert (Hp : Zpos p = 16 + (24 - d)) by lia.
    rewrite Hp, Z.pow_add_r by lia. change (2 ^ 16) with 65536.
    assert (Hq : 0 <= Zpos S / (65536 * 2 ^ (24 - d)) <= 128).
    { split.
      - apply Z.div_pos; lia.
      - apply Z.div_le_upper_bound; [lia |]. rewrite HS. nia. }
    replace ((0 <=? Zpos S / (65536 * 2 ^ (24 - d)))
             && (Zpos S / (65536 * 2 ^ (24 - d)) <=? 255)) with true.
    + eexists. split; [reflexivity | lia].
    + symmetry. apply andb_true_iff. split; apply Z.leb_le; lia.
  - (* quotient 256: the difference is zero *)
    assert (E : mq = 8388608%positive) by (apply Pos2Z.inj; exact Heq).
    subst mq. split; [reflexivity |].
    exists 0. split; [reflexivity | lia].
Qed.

Lemma ltb_finite_false (m1 m2 : positive) (e1 e2 : Z) :
  F32.ltb (S754_finite false m1 e1) (S754_finite false m2 e2) = false ->
  e2 < e1 \/ (e1 = e2 /\ Zpos m2 <= Zpos m1).
Proof.
  unfold F32.ltb, SFltb. cbn [SFcompare].
  destruct (Z.compare_spec e1 e2) as [E | L | G]; try discriminate.
  - fold (Pos.compare m1 m2).
    destruct (Pos.compare_spec m1 m2) as [E' | L' | G'];
      try discriminate; intros _; right; split; try exact E; lia.
  - intros _. left. lia.
Qed.

Lemma not_below_154 (m : positive) (e : Z) :
  F32.ltb (S754_finite false m e) (F32.of_Z 154) = false ->
  -16 < e \/ (e = -16 /\ 10092544 <= Zpos m).
Proof.
  replace (F32.of_Z 154) with (S754_finite false 10092544 (-16))
    by (vm_compute; reflexivity).
  intros H. apply ltb_finite_false in H. lia.
Qed.

Lemma not_above_614_4 (m : positive) (e : Z) :
  F32.ltb (F32.lit 6144 10) (S754_finite false m e) = false ->
  e < -14 \/ (e = -14 /\ Zpos m <= 10066330).
Proof.
  replace (F32.lit 6144 10) with (S754_finite false 10066330 (-14))
    by (vm_compute; reflexivity).
  intros H. apply ltb_finite_false in H. lia.
Qed.

(** A canonical mantissa above the smallest exponent has 24 digits. *)
Lemma valid_normal_mantissa (s : bool) (m : positive) (e : Z) :
  valid_binary 24 128 (S754_finite s m e) = true -> -149 < e ->
  2 ^ 23 <= Zpos m < 2 ^ 24.
Proof.
  unfold valid_binary, bounded, canonical_mantissa. intros H He.
  apply andb_true_iff in H. destruct H as [H _].
  apply Z.eqb_eq in H. rewrite fexp32 in H.
  assert (D : Zpos (digits2_pos m) = 24) by lia.
  pose proof (digits2_pos_bounds m) as B. rewrite D in B.
  change (24 - 1) with 23 in B. exact B.
Qed.


(** The register of a clamped time that is a number. *)
Lemma quantisation_of_clamped_time (ideal : F32.t) :
  is_number ideal ->
  not_negative
    (F32.sub (F32.of_Z 256)
       (F32.div (clamp_spec ideal) (F32.lit 24 10))) = true /\
  exists reg,
    integration_reg_from_ms (clamp_spec ideal) = Some reg /\
    0 <= reg <= 191.
Proof.
  intros [Hn Hv]. unfold clamp_spec, integration_reg_from_ms.
  destruct (F32.ltb ideal (F32.of_Z 154)) eqn:Lo.
  { split; [vm_compute; reflexivity |].
    exists 191. split; [vm_compute; reflexivity | lia]. }
  destruct (F32.ltb (F32.lit 6144 10) ideal) eqn:Hi.
  { split; [vm_compute; reflexivity |].
    exists 0. split; [vm_compute; reflexivity | lia]. }
  destruct ideal as [s | s | | s m e].
  - vm_compute in Lo. discriminate Lo.
  - destruct s; [vm_compute in Lo; discriminate Lo
                | vm_compute in Hi; discriminate Hi].
  - contradiction Hn. reflexivity.
  - destruct s; [vm_compute in Lo; discriminate Lo |].
    destruct (not_below_154 m e Lo) as [L1 | [L1 L2]];
      destruct (not_above_614_4 m e Hi) as [H1 | [H1 H2]]; try lia.
    + (* exponent -15 *)
      pose proof (valid_normal_mantissa false m e Hv ltac:(lia)) as B.
      destruct (div_by_2_4 m e B) as (mq & eq & E & Bq & Cq);
        [right; left; lia |].
      rewrite E. apply sub_from_256; assumption.
    + (* exponent -14 *)
      pose proof (valid_normal_mantissa false m e Hv ltac:(lia)) as B.
      destruct (Z.eq_dec (Zpos m) 10066330) as [Em | Nm].
      * assert (m = 10066330%positive) by (apply Pos2Z.inj; exact Em).
        subst m e. split; [vm_compute; reflexivity |].
        exists 0. split; [vm_compute; reflexivity | lia].
      * destruct (div_by_2_4 m e B) as (mq & eq & E & Bq & Cq);
          [right; right; lia |].
        rewrite E. apply sub_from_256; assumption.
    + (* exponent -16 *)
      pose proof (valid_normal_mantissa false m e Hv ltac:(lia)) as B.
      destruct (div_by_2_4 m e B) as (mq & eq & E & Bq & Cq);
        [left; lia |].
      rewrite E. apply sub_from_256; assumption.
Qed.

(** The register proposed for an ideal time that is a number. *)
Lemma proposed_is_defined (ideal : F32.t) :
  is_number ideal ->
  exists reg, proposed_integration_reg ideal = Some reg /\ 0 <= reg <= 191.
Proof.
  intros H. unfold proposed_integration_reg.
  rewrite saturate_integration_time_clamps.
  destruct (quantisation_of_clamped_time ideal H) as [_ Q]. exact Q.
Qed.




(** ** One cycle, by cases *)

Ltac destruct_read d :=
  destruct d as [| ?d0 [| ?d1 [| ?d2 [| ?d3 [| ?d4 [| ?d5 [| ?d6
                 [| ?d7 [| ?d8 ?l]]]]]]]]].

Lemma update_failed_read (bus : Bus) (st : TCS34725Component) :
  match read_crgb bus with
  | Some d => raw_counts d = None
  | None => True
  end ->
  update bus st = Some (set_status_warning_ true st).
Proof.
  unfold update, raw_counts.
  destruct (read_crgb bus) as [d |]; [| reflexivity].
  destruct_read d; intros H; try reflexivity; discriminate H.
Qed.

Lemma update_of_counts (bus : Bus) (st : TCS34725Component)
    (d : list Z) (c r g b : Z) :
  read_crgb bus = Some d -> raw_counts d = Some (c, r, g, b) ->
  update bus st =
    option_map (set_status_warning_ false)
      (if integration_time_auto_ st
       then auto_adjust bus c (measure_and_publish r g b c st)
       else Some (measure_and_publish r g b c st)).
Proof.
  intros Hread Hd. unfold update. rewrite Hread.
  unfold raw_counts in Hd.
  destruct_read d; try discriminate Hd.
  injection Hd as <- <- <- <-. cbv zeta.
  pose proof (measure_and_publish_keeps_settings
                (le16 d2 d3) (le16 d4 d5) (le16 d6 d7) (le16 d0 d1) st) as K.
  unfold settings_of in K. injection K as _ _ _ Ka. rewrite Ka.
  destruct (integration_time_auto_ st); [| reflexivity].
  destruct (auto_adjust bus (le16 d0 d1) _); reflexivity.
Qed.

Lemma measure_and_publish_keeps_control
    (r g b c : Z) (st : TCS34725Component) :
  control_of (measure_and_publish r g b c st) = control_of st.
Proof.
  unfold control_of.
  rewrite measure_and_publish_keeps_settings.
  f_equal; [f_equal |].
  - unfold measure_and_publish, calculate_temperature_and_lux_.
    repeat match goal with
           | |- context [if ?x then _ else _] => destruct x
           | |- context [match ?x with Some _ => _ | None => _ end] =>
               destruct x
           end; reflexivity.
  - unfold measure_and_publish, calculate_temperature_and_lux_.
    repeat match goal with
           | |- context [if ?x then _ else _] => destruct x
           | |- context [match ?x with Some _ => _ | None => _ end] =>
               destruct x
           end; reflexivity.
Qed.

(** The multiplier [set_gain] stores depends on the register value only. *)
Lemma set_gain_multiplier (gain : Z) (s1 s2 : TCS34725Component) :
  gain_ (set_gain gain s1) = gain_ (set_gain gain s2).
Proof.
  unfold set_gain.
  repeat match goal with
         | |- context [match ?x with _ => _ end] => destruct x
         end; reflexivity.
Qed.

Lemma set_gain_failed (gain : Z) (st : TCS34725Component) :
  failed_ (set_gain gain st) = failed_ st.
Proof. exact (proj2 (set_gain_settings gain st)). Qed.

(** The exposure state after the automatic adjustment. *)
Lemma auto_adjust_control_value
    (bus : Bus) (raw_c : Z) (st : TCS34725Component) :
  option_map control_of (auto_adjust bus raw_c st) =
    match proposed_integration_reg (snd (adjust_gain raw_c st)) with
    | None => None
    | Some regval =>
        let gain_new := fst (adjust_gain raw_c st) in
        let next := saturate_integration_time (snd (adjust_gain raw_c st)) in
        Some
          (if negb (integration_reg_ st =? regval)
              || negb (gain_new =? gain_reg_ st)
           then
             if negb (write_register_ok bus TCS34725_REGISTER_ATIME regval)
                || negb (write_register_ok bus TCS34725_REGISTER_CONTROL
                           gain_new)
             then (regval, gain_new, integration_time_ st,
                   integration_time_auto_ st, gain_ (set_gain gain_new st),
                   true)
             else (regval, gain_new, next, integration_time_auto_ st,
                   gain_ (set_gain gain_new st), failed_ st)
           else control_of st)
    end.
Proof.
  unfold auto_adjust, proposed_integration_reg.
  destruct (adjust_gain raw_c st) as [gain_new ideal]. cbn [fst snd].
  destruct (integration_reg_from_ms (saturate_integration_time ideal))
    as [regval |]; [| reflexivity].
  cbv zeta.
  destruct (negb (integration_reg_ st =? regval)
            || negb (gain_new =? gain_reg_ st)); [| reflexivity].
  set (s := set_gain gain_new
              (set_gain_reg_ gain_new (set_integration_reg_ regval st))).
  destruct (set_gain_settings gain_new
              (set_gain_reg_ gain_new (set_integration_reg_ regval st)))
    as [Hs Hf].
  fold s in Hs, Hf.
  unfold settings_of in Hs. injection Hs as Hr Hg Ht Ha.
  rewrite Hr, Hg.
  assert (Hm : gain_ s = gain_ (set_gain gain_new st))
    by apply set_gain_multiplier.
  destruct (negb (write_register_ok bus TCS34725_REGISTER_ATIME regval)
            || negb (write_register_ok bus TCS34725_REGISTER_CONTROL
                       gain_new)).
  - cbn [option_map]. unfold control_of, settings_of.
    change (integration_reg_ (mark_failed s)) with (integration_reg_ s).
    change (gain_reg_ (mark_failed s)) with (gain_reg_ s).
    change (integration_time_ (mark_failed s)) with (integration_time_ s).
    change (integration_time_auto_ (mark_failed s))
      with (integration_time_auto_ s).
    change (gain_ (mark_failed s)) with (gain_ s).
    change (failed_ (mark_failed s)) with true.
    rewrite Hr, Hg, Ht, Ha, Hm. reflexivity.
  - cbn [option_map]. unfold control_of, settings_of.
    set (next := saturate_integration_time ideal).
    change (integration_reg_ (set_integration_time_ next s))
      with (integration_reg_ s).
    change (gain_reg_ (set_integration_time_ next s)) with (gain_reg_ s).
    change (integration_time_ (set_integration_time_ next s)) with next.
    change (integration_time_auto_ (set_integration_time_ next s))
      with (integration_time_auto_ s).
    change (gain_ (set_integration_time_ next s)) with (gain_ s).
    change (failed_ (set_integration_time_ next s)) with (failed_ s).
    rewrite Hr, Hg, Ha, Hm, Hf. reflexivity.
Qed.

(** The exposure state after a cycle whose read succeeds. *)
Lemma update_control_value (bus : Bus) (st : TCS34725Component)
    (d : list Z) (c r g b : Z) :
  read_crgb bus = Some d -> raw_counts d = Some (c, r, g, b) ->
  option_map control_of (update bus st) =
    if integration_time_auto_ st
    then option_map control_of (auto_adjust bus c st)
    else Some (control_of st).
Proof.
  intros Hread Hd. rewrite (update_of_counts bus st d c r g b Hread Hd).
  pose proof (measure_and_publish_keeps_control r g b c st) as K.
  set (s := measure_and_publish r g b c st) in *.
  destruct (integration_time_auto_ st).
  - rewrite (auto_adjust_control_value bus c st).
    pose proof (auto_adjust_control_value bus c s) as A.
    assert (Hset : settings_of s = settings_of st)
      by apply measure_and_publish_keeps_settings.
    rewrite (adjust_gain_settings c s st Hset) in A.
    cbv zeta in A. cbv zeta.
    unfold control_of, settings_of in K.
    injection K as Kr Kg Kt Ka Km Kf.
    rewrite (set_gain_multiplier (fst (adjust_gain c st)) s st) in A.
    rewrite Kr, Kg, Kt, Ka, Kf in A.
    replace (control_of s) with (control_of st) in A
      by (unfold control_of, settings_of; congruence).
    rewrite <- A.
    destruct (auto_adjust bus c s); reflexivity.
  - cbn [option_map]. rewrite <- K. reflexivity.
Qed.

Lemma option_map_Some {A B : Type} (f : A -> B) (o : option A) (y : B) :
  option_map f o = Some y -> exists x, o = Some x /\ f x = y.
Proof.
  destruct o as [x |]; [| discriminate].
  intros H. injection H as H. exists x. split; [reflexivity | exact H].
Qed.

(** ** Exposure state across a cycle *)

(** X1. In manual mode a cycle always completes and leaves the exposure
    state alone: integration register, gain register, cached time, mode,
    gain multiplier and failure mark are the same after it, whatever the
    read returns and whatever the writes would answer. *)
Theorem manual_cycle_keeps_exposure (bus : Bus) (st : TCS34725Component) :
  integration_time_auto_ st = false ->
  exists st', update bus st = Some st' /\ control_of st' = control_of st.
Proof.
  intros Hm.
  destruct (read_crgb bus) as [d |] eqn:Hread.
  - destruct (raw_counts d) as [[[[c r] g] b] |] eqn:Hd.
    + rewrite (update_of_counts bus st d c r g b Hread Hd), Hm.
      eexists. split; [reflexivity |].
      apply (measure_and_publish_keeps_control r g b c st).
    + rewrite update_failed_read by (rewrite Hread; exact Hd).
      eexists. split; reflexivity.
  - rewrite update_failed_read by (rewrite Hread; exact I).
    eexists. split; reflexivity.
Qed.

Lemma manual_cycle_keeps_exposure_witness :
  exists st',
    update bus_write_fails manual_16x = Some st' /\
    control_of st' = control_of manual_16x.
Proof.
  apply (manual_cycle_keeps_exposure bus_write_fails manual_16x).
  reflexivity.
Defined.

(** X2. In automatic mode, when the proposed register and gain are the
    current ones, the cycle issues no write: it completes with the
    exposure state unchanged and the component not marked as failed,
    even on a bus where every write would fail. *)
Theorem unchanged_proposal_writes_nothing
    (bus : Bus) (st : TCS34725Component) (d : list Z) (c r g b : Z) :
  read_crgb bus = Some d -> raw_counts d = Some (c, r, g, b) ->
  integration_time_auto_ st = true ->
  proposed_integration_reg (snd (adjust_gain c st))
  = Some (integration_reg_ st) ->
  fst (adjust_gain c st) = gain_reg_ st ->
  exists st', update bus st = Some st' /\ control_of st' = control_of st.
Proof.
  intros Hread Hd Ha Hreg Hgain.
  apply option_map_Some.
  rewrite (update_control_value bus st d c r g b Hread Hd), Ha.
  rewrite auto_adjust_control_value, Hreg. cbv zeta.
  rewrite Hgain, !Z.eqb_refl. reflexivity.
Qed.

(** X3. In automatic mode, when the proposal differs from the current
    settings and both writes succeed, the registers take the proposed
    values, the cached time becomes the clamped ideal time, the gain
    multiplier follows the new gain register, and the failure mark is
    not touched. *)
Theorem successful_write_adopts_proposal
    (bus : Bus) (st : TCS34725Component) (d : list Z) (c r g b : Z)
    (regval : Z) :
  read_crgb bus = Some d -> raw_counts d = Some (c, r, g, b) ->
  integration_time_auto_ st = true ->
  proposed_integration_reg (snd (adjust_gain c st)) = Some regval ->
  regval <> integration_reg_ st \/ fst (adjust_gain c st) <> gain_reg_ st ->
  write_register_ok bus TCS34725_REGISTER_ATIME regval = true ->
  write_register_ok bus TCS34725_REGISTER_CONTROL (fst (adjust_gain c st))
  = true ->
  exists st',
    update bus st = Some st' /\
    control_of st' =
      (regval, fst (adjust_gain c st),
       saturate_integration_time (snd (adjust_gain c st)), true,
       gain_ (set_gain (fst (adjust_gain c st)) st), failed_ st).
Proof.
  intros Hread Hd Ha Hreg Hdiff Hw1 Hw2.
  apply option_map_Some.
  rewrite (update_control_value bus st d c r g b Hread Hd), Ha.
  rewrite auto_adjust_control_value, Hreg. cbv zeta.
  rewrite Hw1, Hw2, Ha.
  replace (negb (integration_reg_ st =? regval)
           || negb (fst (adjust_gain c st) =? gain_reg_ st)) with true.
  - reflexivity.
  - symmetry. apply orb_true_iff. destruct Hdiff as [H | H].
    + left. apply negb_true_iff, Z.eqb_neq. congruence.
    + right. apply negb_true_iff, Z.eqb_neq. exact H.
Qed.

Lemma successful_write_adopts_proposal_witness :
  exists st',
    update bus_write_succeeds auto_exposure_start = Some st' /\
    control_of st' =
      (4, fst (adjust_gain 10000 auto_exposure_start),
       saturate_integration_time
         (snd (adjust_gain 10000 auto_exposure_start)), true,
       gain_ (set_gain (fst (adjust_gain 10000 auto_exposure_start))
                auto_exposure_start),
       failed_ auto_exposure_start).
Proof.
  apply (successful_write_adopts_proposal bus_write_succeeds
           auto_exposure_start [0x10; 0x27; 0; 0; 0; 0; 0; 0]
           10000 0 0 0 4).
  - reflexivity.
  - reflexivity.
  - reflexivity.
  - vm_compute. reflexivity.
  - left. vm_compute. discriminate.
  - reflexivity.
  - reflexivity.
Defined.

Lemma unchanged_proposal_writes_nothing_witness :
  exists st',
    update bus_60_percent settled_604ms = Some st' /\
    control_of st' = control_of settled_604ms.
Proof.
  apply (unchanged_proposal_writes_nothing bus_60_percent settled_604ms
           [0x99; 0x99; 0xE8; 0x03; 0xE8; 0x03; 0xE8; 0x03]
           39321 1000 1000 1000).
  - reflexivity.
  - reflexivity.
  - reflexivity.
  - vm_compute. reflexivity.
  - vm_compute. reflexivity.
Defined.

(** ** Invariants of the exposure state *)

Lemma gain_consistent_control (s1 s2 : TCS34725Component) :
  control_of s1 = control_of s2 -> gain_consistent s1 -> gain_consistent s2.
Proof.
  unfold control_of, settings_of, gain_consistent.
  intros H. injection H as Hr Hg Ht Ha Hm Hf. intros G.
  rewrite <- Hm, <- Hg, G. apply set_gain_multiplier.
Qed.

(** The ways a cycle can leave the exposure state: untouched, or, in
    automatic mode, with the proposed registers and either the old time
    and the failure mark, or the new time. *)
Lemma update_control_cases (bus : Bus) (st st' : TCS34725Component) :
  update bus st = Some st' ->
  control_of st' = control_of st \/
  exists c regval,
    integration_time_auto_ st = true /\
    proposed_integration_reg (snd (adjust_gain c st)) = Some regval /\
    (control_of st' =
       (regval, fst (adjust_gain c st), integration_time_ st, true,
        gain_ (set_gain (fst (adjust_gain c st)) st), true)
     \/
     control_of st' =
       (regval, fst (adjust_gain c st),
        saturate_integration_time (snd (adjust_gain c st)), true,
        gain_ (set_gain (fst (adjust_gain c st)) st), failed_ st)).
Proof.
  intros Hu.
  destruct (read_crgb bus) as [d |] eqn:Hread.
  2: { rewrite update_failed_read in Hu by (rewrite Hread; exact I).
       injection Hu as <-. left. reflexivity. }
  destruct (raw_counts d) as [[[[c r] g] b] |] eqn:Hd.
  2: { rewrite update_failed_read in Hu by (rewrite Hread; exact Hd).
       injection Hu as <-. left. reflexivity. }
  pose proof (update_control_value bus st d c r g b Hread Hd) as V.
  rewrite Hu in V. cbn [option_map] in V.
  destruct (integration_time_auto_ st) eqn:Ha.
  2: { left. congruence. }
  rewrite auto_adjust_control_value in V.
  destruct (proposed_integration_reg (snd (adjust_gain c st)))
    as [regval |] eqn:Hreg; [| discriminate V].
  cbv zeta in V.
  destruct (negb (integration_reg_ st =? regval)
            || negb (fst (adjust_gain c st) =? gain_reg_ st));
    [| left; congruence].
  right. exists c, regval. split; [reflexivity |]. split; [exact Hreg |].
  destruct (negb _ || negb _); [left | right]; congruence.
Qed.

(** X4. The agreement of the gain multiplier with the gain register is
    kept by every cycle, in both modes and also when a write fails. *)
Theorem update_keeps_gain_consistent
    (bus : Bus) (st st' : TCS34725Component) :
  gain_consistent st -> update bus st = Some st' -> gain_consistent st'.
Proof.
  intros G Hu.
  destruct (update_control_cases bus st st' Hu)
    as [V | (c & regval & _ & _ & V)].
  - exact (gain_consistent_control st st' (eq_sym V) G).
  - assert (Hg : gain_reg_ st' = fst (adjust_gain c st) /\
                 gain_ st' = gain_ (set_gain (fst (adjust_gain c st)) st)).
    { unfold control_of, settings_of in V.
      destruct V as [V | V]; injection V as _ Vg _ _ Vm _;
        split; assumption. }
    destruct Hg as [Hg Hm]. unfold gain_consistent.
    rewrite Hm, Hg. apply set_gain_multiplier.
Qed.

Lemma update_keeps_gain_consistent_witness :
  exists st',
    update bus_write_fails auto_exposure_start = Some st' /\
    gain_consistent st'.
Proof.
  destruct (update bus_write_fails auto_exposure_start) as [st' |] eqn:E.
  - exists st'. split; [reflexivity |].
    apply (update_keeps_gain_consistent bus_write_fails
             auto_exposure_start st'); [reflexivity | exact E].
  - vm_compute in E. discriminate E.
Defined.

(** X5. A cycle that does not end marked as failed keeps the integration
    register equal to the quantisation of the cached time. *)
Theorem update_keeps_time_consistent
    (bus : Bus) (st st' : TCS34725Component) :
  time_consistent st -> update bus st = Some st' -> failed_ st' = false ->
  time_consistent st'.
Proof.
  intros T Hu Hf.
  destruct (update_control_cases bus st st' Hu)
    as [V | (c & regval & _ & Hreg & [V | V])];
    unfold control_of, settings_of in V; injection V as Vr Vg Vt Va Vm Vf;
    unfold time_consistent.
  - rewrite Vr, Vt. exact T.
  - congruence.
  - rewrite Vr, Vt. exact Hreg.
Qed.

Lemma update_keeps_time_consistent_witness :
  exists st',
    update bus_write_succeeds auto_exposure_start = Some st' /\
    time_consistent st'.
Proof.
  destruct (update bus_write_succeeds auto_exposure_start)
    as [st' |] eqn:E.
  - exists st'. split; [reflexivity |].
    apply (update_keeps_time_consistent bus_write_succeeds
             auto_exposure_start st').
    + vm_compute. reflexivity.
    + exact E.
    + vm_compute in E. injection E as <-. reflexivity.
  - vm_compute in E. discriminate E.
Defined.

(** X6. The exposure control looks at the clear channel only: two reads
    with the same clear count lead, from the same component and with the
    same answers to the writes, to the same exposure state, whatever the
    red, green and blue counts are. *)
Theorem exposure_depends_on_clear_only
    (st : TCS34725Component) (w : Z -> Z -> bool) (d d' : list Z)
    (c r g b r' g' b' : Z) :
  raw_counts d = Some (c, r, g, b) ->
  raw_counts d' = Some (c, r', g', b') ->
  option_map control_of (update (bus_reading d w) st)
  = option_map control_of (update (bus_reading d' w) st).
Proof.
  intros Hd Hd'.
  rewrite (update_control_value (bus_reading d w) st d c r g b
             eq_refl Hd).
  rewrite (update_control_value (bus_reading d' w) st d' c r' g' b'
             eq_refl Hd').
  destruct (integration_time_auto_ st); [| reflexivity].
  rewrite !auto_adjust_control_value. reflexivity.
Qed.

Lemma exposure_depends_on_clear_only_witness :
  option_map control_of
    (update (bus_reading [0x10; 0x27; 0; 0; 0; 0; 0; 0] (fun _ _ => true))
       auto_exposure_start)
  = option_map control_of
      (update (bus_reading [0x10; 0x27; 1; 2; 3; 4; 5; 6] (fun _ _ => true))
         auto_exposure_start).
Proof.
  apply (exposure_depends_on_clear_only auto_exposure_start
           (fun _ _ => true) _ _ 10000 0 0 0 513 1027 1541);
    reflexivity.
Defined.

(** ** Conversion: what is returned *)

Lemma convert_discarded (st : TCS34725Component) (r g b c : Z) :
  (c =? 0) || any_saturated st r g b c = true ->
  convert st r g b c = (F32.nan, F32.nan).
Proof.
  unfold convert, calculate_temperature_and_lux_. intros H.
  destruct (c =? 0); [reflexivity |].
  change (any_saturated (set_color_temperature_ F32.nan
                           (set_illuminance_ F32.nan st)) r g b c)
    with (any_saturated st r g b c).
  cbn [orb] in H. rewrite H. reflexivity.
Qed.

Lemma illuminance_unsaturated (st : TCS34725Component) (r g b c : Z) :
  c <> 0 -> any_saturated st r g b c = false ->
  fst (convert st r g b c) =
    if F32.ltb MAX_ILLUMINANCE (lux_of st r g b) then F32.nan
    else lux_of st r g b.
Proof.
  intros Hc Hs. unfold convert, calculate_temperature_and_lux_.
  destruct (Z.eqb_spec c 0) as [E | _]; [contradiction |].
  change (any_saturated (set_color_temperature_ F32.nan
                           (set_illuminance_ F32.nan st)) r g b c)
    with (any_saturated st r g b c).
  rewrite Hs. cbv zeta.
  change (illuminance_ (set_illuminance_ ?v _)) with v.
  change (lux_of (set_color_temperature_ F32.nan
                    (set_illuminance_ F32.nan st)) r g b)
    with (lux_of st r g b).
  destruct (F32.ltb MAX_ILLUMINANCE (lux_of st r g b)); [reflexivity |].
  destruct (r =? 0); [reflexivity |].
  change (color_temperature_ (set_color_temperature_ ?v _)) with v.
  destruct (F32.ltb (ct_of r b) MIN_COLOR_TEMPERATURE); [reflexivity |].
  destruct (F32.ltb MAX_COLOR_TEMPERATURE (ct_of r b)); reflexivity.
Qed.

Lemma at_least_not_nan (c : positive) (ec : Z) (x : spec_float) :
  at_least c ec x -> x <> F32.nan.
Proof. intros [-> | (m & e & -> & _)]; discriminate. Qed.

(** X7. Both outputs are either undefined or inside their range: the
    illuminance between 0 and 100000, the colour temperature between 1391
    and 15000. *)
Theorem conversion_outputs_in_range
    (st : TCS34725Component) (r g b c : Z) :
  is_uint16 r -> is_uint16 b ->
  (fst (convert st r g b c) = F32.nan \/
   (F32.leb (S754_zero false) (fst (convert st r g b c)) = true /\
    F32.leb (fst (convert st r g b c)) MAX_ILLUMINANCE = true)) /\
  (snd (convert st r g b c) = F32.nan \/
   (F32.leb CT_OFFSET (snd (convert st r g b c)) = true /\
    F32.leb (snd (convert st r g b c)) MAX_COLOR_TEMPERATURE = true)).
Proof.
  intros Hr Hb. split.
  - destruct (illuminance_cases st r g b c) as [N | [E L]];
      [left; exact N |].
    rewrite E.
    destruct (std_max_zero_sign
                (F32.div
                   (F32.mul SCALING_FACTOR
                      (F32.add
                         (F32.add (F32.mul R_COEF (F32.of_Z r))
                                  (F32.mul G_COEF (F32.of_Z g)))
                         (F32.mul B_COEF (F32.of_Z b))))
                   (F32.div (F32.mul (integration_time_ st) (gain_ st))
                            (F32.mul (glass_attenuation_ st) DF))))
      as [N | P]; [left; exact N |].
    fold (lux_of st r g b) in P.
    destruct (SFltb_false_cases _ _ L) as [N | L'].
    + left. destruct (SFcompare_None _ _ N) as [Z' | Z'];
        [discriminate Z' | exact Z'].
    + right. split; [exact P | exact L'].
  - destruct ((c =? 0) || any_saturated st r g b c) eqn:D.
    + left. rewrite (convert_discarded st r g b c D). reflexivity.
    + apply orb_false_iff in D. destruct D as [Hc Hs].
      apply Z.eqb_neq in Hc.
      rewrite (color_temperature_unsaturated st r g b c Hc Hs).
      destruct (F32.ltb MAX_ILLUMINANCE (lux_of st r g b));
        [left; reflexivity |].
      destruct (Z.eqb_spec r 0) as [Hr0 | Hr0]; [left; reflexivity |].
      pose proof (ct_of_at_least r b Hr Hb Hr0) as A.
      destruct (at_least_offset_comparisons _ A) as [Hleb Hltb].
      rewrite Hltb.
      destruct (F32.ltb MAX_COLOR_TEMPERATURE (ct_of r b)) eqn:Hi;
        [left; reflexivity |].
      right. split; [exact Hleb |].
      destruct (SFltb_false_cases _ _ Hi) as [N | L']; [| exact L'].
      destruct (SFcompare_None _ _ N) as [Z' | Z'];
        [discriminate Z' | destruct (at_least_not_nan _ _ _ A Z')].
Qed.

Lemma conversion_outputs_in_range_witness :
  (fst (convert short_exposure 700 700 700 700) = F32.nan \/
   (F32.leb (S754_zero false)
      (fst (convert short_exposure 700 700 700 700)) = true /\
    F32.leb (fst (convert short_exposure 700 700 700 700))
      MAX_ILLUMINANCE = true)) /\
  (snd (convert short_exposure 700 700 700 700) = F32.nan \/
   (F32.leb CT_OFFSET
      (snd (convert short_exposure 700 700 700 700)) = true /\
    F32.leb (snd (convert short_exposure 700 700 700 700))
      MAX_COLOR_TEMPERATURE = true)).
Proof.
  apply (conversion_outputs_in_range short_exposure 700 700 700 700);
    unfold is_uint16; lia.
Defined.

(** X8. A red count of zero leaves the colour temperature undefined
    without touching the illuminance: for an unsaturated sample with a
    clear count other than zero the illuminance is the computed one, or
    undefined when above the limit. *)
Theorem zero_red_keeps_illuminance
    (st : TCS34725Component) (g b c : Z) :
  c <> 0 -> any_saturated st 0 g b c = false ->
  convert st 0 g b c =
    (if F32.ltb MAX_ILLUMINANCE (lux_of st 0 g b) then F32.nan
     else lux_of st 0 g b,
     F32.nan).
Proof.
  intros Hc Hs.
  rewrite (surjective_pairing (convert st 0 g b c)).
  rewrite (illuminance_unsaturated st 0 g b c Hc Hs).
  rewrite (color_temperature_unsaturated st 0 g b c Hc Hs).
  destruct (F32.ltb MAX_ILLUMINANCE (lux_of st 0 g b)); reflexivity.
Qed.

Lemma zero_red_keeps_illuminance_witness :
  convert short_exposure 0 500 100 600 =
    (if F32.ltb MAX_ILLUMINANCE (lux_of short_exposure 0 500 100)
     then F32.nan else lux_of short_exposure 0 500 100,
     F32.nan).
Proof.
  apply (zero_red_keeps_illuminance short_exposure 500 100 600).
  - discriminate.
  - vm_compute. reflexivity.
Defined.

(** ** Saturation: counts that always or never reach the threshold *)

Lemma full_scale_check_all : forallb full_scale_check all_uint8 = true.
Proof. vm_compute. reflexivity. Qed.

Lemma low_counts_check_all : forallb low_counts_check all_uint8 = true.
Proof. vm_compute. reflexivity. Qed.

Lemma full_scale_reaches_threshold (st : TCS34725Component) :
  is_uint8 (integration_reg_ st) ->
  F32.leb (sat_threshold st) (F32.of_Z 65535) = true.
Proof.
  intros Hreg.
  pose proof (forall_uint8 _ full_scale_check_all _ Hreg) as H.
  unfold full_scale_check in H. apply andb_true_iff in H.
  destruct H as [H1 H2]. unfold sat_threshold.
  destruct (F32.ltb (integration_time_ st) (F32.of_Z 150)); assumption.
Qed.

Lemma low_count_under_threshold (st : TCS34725Component) (v : Z) :
  is_uint8 (integration_reg_ st) -> 0 <= v < 768 ->
  F32.leb (sat_threshold st) (F32.of_Z v) = false.
Proof.
  intros Hreg Hv.
  pose proof (forall_uint8 _ low_counts_check_all _ Hreg) as H.
  unfold low_counts_check in H.
  pose proof (forall_from_spec _ _ _ H v ltac:(cbn; lia)) as Hc.
  cbv beta in Hc. apply andb_true_iff in Hc. destruct Hc as [H1 H2].
  apply negb_true_iff in H1. apply negb_true_iff in H2.
  unfold sat_threshold.
  destruct (F32.ltb (integration_time_ st) (F32.of_Z 150)); assumption.
Qed.

(** X9. A channel at full scale, 65535, always counts as saturated: with
    any integration register and any integration time, such a sample
    gives no illuminance and no colour temperature. *)
Theorem full_scale_channel_discards_sample
    (st : TCS34725Component) (r g b c : Z) :
  is_uint8 (integration_reg_ st) ->
  c = 65535 \/ r = 65535 \/ g = 65535 \/ b = 65535 ->
  convert st r g b c = (F32.nan, F32.nan).
Proof.
  intros Hreg H. apply convert_discarded.
  pose proof (full_scale_reaches_threshold st Hreg) as F.
  destruct (c =? 0); [reflexivity |]. cbn [orb].
  unfold any_saturated, check_saturation.
  destruct H as [-> | [-> | [-> | ->]]]; rewrite F;
    repeat rewrite orb_true_r; reflexivity.
Qed.

Lemma full_scale_channel_discards_sample_witness :
  convert long_exposure 100 65535 100 30000 = (F32.nan, F32.nan).
Proof.
  apply (full_scale_channel_discards_sample long_exposure
           100 65535 100 30000).
  - unfold is_uint8. vm_compute. split; discriminate.
  - right; right; left. reflexivity.
Defined.

(** X10. A sample whose four counts are all below 768 is never treated
    as saturated, whatever the integration register and time are. *)
Theorem low_counts_never_saturated
    (st : TCS34725Component) (r g b c : Z) :
  is_uint8 (integration_reg_ st) ->
  0 <= c < 768 -> 0 <= r < 768 -> 0 <= g < 768 -> 0 <= b < 768 ->
  any_saturated st r g b c = false.
Proof.
  intros Hreg Hc Hr Hg Hb.
  unfold any_saturated, check_saturation.
  rewrite !low_count_under_threshold by assumption. reflexivity.
Qed.

Lemma low_counts_never_saturated_witness :
  any_saturated short_exposure 767 767 767 767 = false.
Proof.
  apply (low_counts_never_saturated short_exposure 767 767 767 767);
    try lia.
  unfold is_uint8. vm_compute. split; discriminate.
Defined.

(** The bound 768 is the smallest threshold: at 2.4 ms a count of 768 is
    saturated. *)
Lemma count_768_saturated_at_shortest_time :
  any_saturated short_exposure 0 0 0 768 = true.
Proof. vm_compute. reflexivity. Qed.

(** ** Decoding of the counts *)

Lemma le16_check_all : forall_from le16_check 0 256 = true.
Proof. vm_compute. reflexivity. Qed.

(** X11. The two bytes of a channel decode, low byte first, to
    [lo + 256 * hi], a 16-bit count. *)
Theorem le16_value (lo hi : Z) :
  is_byte lo -> is_byte hi ->
  le16 lo hi = lo + 256 * hi /\ is_uint16 (le16 lo hi).
Proof.
  intros Hlo Hhi. unfold is_byte in *.
  pose proof (forall_from_spec _ _ _ le16_check_all lo ltac:(cbn; lia)) as H.
  unfold le16_check in H.
  pose proof (forall_from_spec _ _ _ H hi ltac:(cbn; lia)) as E.
  cbv beta in E. apply Z.eqb_eq in E.
  split; [exact E |]. rewrite E. unfold is_uint16. lia.
Qed.

Lemma le16_value_witness :
  le16 0x10 0x27 = 0x10 + 256 * 0x27 /\ is_uint16 (le16 0x10 0x27).
Proof.
  apply (le16_value 0x10 0x27); unfold is_byte; lia.
Defined.

(** ** The integration time of a register value *)

Lemma ms_decreasing_check_all : forallb ms_decreasing_check all_uint8 = true.
Proof. vm_compute. reflexivity. Qed.

(** X12. The integration time falls strictly as the register value
    rises, over all 8-bit values: the rounding of the single precision
    product never makes two settings equal or swaps them. *)
Theorem ms_from_integration_reg_decreasing (reg reg' : Z) :
  is_uint8 reg -> is_uint8 reg' -> reg < reg' ->
  F32.ltb (ms_from_integration_reg reg') (ms_from_integration_reg reg)
  = true.
Proof.
  intros Hr Hr' Hlt.
  pose proof (forall_uint8 _ ms_decreasing_check_all _ Hr) as H.
  unfold ms_decreasing_check in H.
  pose proof (forall_from_spec _ _ _ H reg'
                ltac:(unfold is_uint8 in Hr'; cbn; lia)) as E.
  cbv beta in E.
  apply Z.ltb_lt in Hlt. rewrite Hlt in E. exact E.
Qed.

Lemma ms_from_integration_reg_decreasing_witness :
  F32.ltb (ms_from_integration_reg 255) (ms_from_integration_reg 0) = true.
Proof.
  apply (ms_from_integration_reg_decreasing 0 255);
    unfold is_uint8; lia.
Defined.

(** ** Publication *)

Lemma calculate_keeps_sensors (r g b c : Z) (st : TCS34725Component) :
  sensors_of (calculate_temperature_and_lux_ r g b c st) = sensors_of st.
Proof.
  unfold calculate_temperature_and_lux_.
  repeat match goal with
         | |- context [if ?x then _ else _] => destruct x
         end; reflexivity.
Qed.

Lemma set_gain_keeps_sensors (gain : Z) (st : TCS34725Component) :
  sensors_of (set_gain gain st) = sensors_of st.
Proof.
  unfold set_gain.
  repeat match goal with
         | |- context [match ?x with _ => _ end] => destruct x
         end; reflexivity.
Qed.

Lemma auto_adjust_keeps_sensors
    (bus : Bus) (raw_c : Z) (st st' : TCS34725Component) :
  auto_adjust bus raw_c st = Some st' -> sensors_of st' = sensors_of st.
Proof.
  unfold auto_adjust.
  destruct (adjust_gain raw_c st) as [gain_new ideal].
  destruct (integration_reg_from_ms _) as [regval |]; [| discriminate].
  cbv zeta.
  destruct (negb _ || negb _).
  - set (s := set_gain gain_new _).
    assert (Hs : sensors_of s = sensors_of st).
    { unfold s. rewrite set_gain_keeps_sensors. reflexivity. }
    destruct (negb _ || negb _); intros H; injection H as <-; exact Hs.
  - intros H. injection H as <-. reflexivity.
Qed.

(** The colour sensors after the first part of a cycle. *)
Lemma published_channels (r g b c : Z) (st : TCS34725Component) :
  red_sensor_ (measure_and_publish r g b c st)
  = publish_state (channel_percent r c) (red_sensor_ st) /\
  green_sensor_ (measure_and_publish r g b c st)
  = publish_state (channel_percent g c) (green_sensor_ st) /\
  blue_sensor_ (measure_and_publish r g b c st)
  = publish_state (channel_percent b c) (blue_sensor_ st).
Proof.
  unfold measure_and_publish, channel_percent.
  destruct (c =? 0); cbv zeta iota beta.
  - match goal with
    | |- context [calculate_temperature_and_lux_ r g b c ?s] =>
        pose proof (calculate_keeps_sensors r g b c s) as K
    end.
    unfold sensors_of in K. injection K as Kr Kg Kb _ _ _.
    destruct (illuminance_sensor_ _), (color_temperature_sensor_ _);
      match goal with
      | |- context [if ?x then _ else _] => destruct x
      end; repeat split; try assumption; reflexivity.
  - match goal with
    | |- context [calculate_temperature_and_lux_ r g b c ?s] =>
        pose proof (calculate_keeps_sensors r g b c s) as K
    end.
    unfold sensors_of in K. injection K as Kr Kg Kb _ _ _.
    destruct (illuminance_sensor_ _), (color_temperature_sensor_ _);
      match goal with
      | |- context [if ?x then _ else _] => destruct x
      end; repeat split; try assumption; reflexivity.
Qed.

(** The conversion does not depend on the colour sensors. *)
Lemma convert_ignores_sensors
    (sr sg sb sc : option F32.t) (st : TCS34725Component) (r g b c : Z) :
  convert (set_sensors_rgbc sr sg sb sc st) r g b c = convert st r g b c.
Proof.
  unfold convert, calculate_temperature_and_lux_.
  destruct (c =? 0); [reflexivity |].
  change (any_saturated
            (set_color_temperature_ F32.nan
               (set_illuminance_ F32.nan (set_sensors_rgbc sr sg sb sc st)))
            r g b c)
    with (any_saturated st r g b c).
  change (any_saturated
            (set_color_temperature_ F32.nan (set_illuminance_ F32.nan st))
            r g b c)
    with (any_saturated st r g b c).
  destruct (any_saturated st r g b c); [reflexivity |].
  cbv zeta.
  change (illuminance_ (set_illuminance_ ?v _)) with v.
  change (lux_of (set_color_temperature_ F32.nan
                    (set_illuminance_ F32.nan
                       (set_sensors_rgbc sr sg sb sc st))) r g b)
    with (lux_of st r g b).
  change (lux_of (set_color_temperature_ F32.nan
                    (set_illuminance_ F32.nan st)) r g b)
    with (lux_of st r g b).
  destruct (F32.ltb MAX_ILLUMINANCE (lux_of st r g b)); [reflexivity |].
  destruct (r =? 0); [reflexivity |].
  change (color_temperature_ (set_color_temperature_ ?v _)) with v.
  destruct (F32.ltb (ct_of r b) MIN_COLOR_TEMPERATURE); [reflexivity |].
  destruct (F32.ltb MAX_COLOR_TEMPERATURE (ct_of r b)); reflexivity.
Qed.

(** The illuminance and colour temperature sensors after the first part
    of a cycle. *)
Lemma published_photometry (r g b c : Z) (st : TCS34725Component) :
  (illuminance_sensor_ (measure_and_publish r g b c st),
   color_temperature_sensor_ (measure_and_publish r g b c st)) =
    let computed :=
      match illuminance_sensor_ st, color_temperature_sensor_ st with
      | None, None => (illuminance_ st, color_temperature_ st)
      | _, _ => convert st r g b c
      end in
    if publishes_photometry c st
    then (publish_state (fst computed) (illuminance_sensor_ st),
          publish_state (snd computed) (color_temperature_sensor_ st))
    else (illuminance_sensor_ st, color_temperature_sensor_ st).
Proof.
  unfold measure_and_publish, publishes_photometry.
  assert (P : forall sr sg sb sc,
    (illuminance_sensor_
       (let st1 := set_sensors_rgbc sr sg sb sc st in
        let st2 :=
          match illuminance_sensor_ st1, color_temperature_sensor_ st1 with
          | None, None => st1
          | _, _ => calculate_temperature_and_lux_ r g b c st1
          end in
        if negb (integration_time_auto_ st2) || (c <? 65530)
           || ((gain_reg_ st2 =? 0)
               && F32.ltb (integration_time_ st2) (F32.of_Z 200))
        then
          set_sensors_lux_ct
            (publish_state (illuminance_ st2) (illuminance_sensor_ st2))
            (publish_state (color_temperature_ st2)
               (color_temperature_sensor_ st2)) st2
        else st2),
     color_temperature_sensor_
       (let st1 := set_sensors_rgbc sr sg sb sc st in
        let st2 :=
          match illuminance_sensor_ st1, color_temperature_sensor_ st1 with
          | None, None => st1
          | _, _ => calculate_temperature_and_lux_ r g b c st1
          end in
        if negb (integration_time_auto_ st2) || (c <? 65530)
           || ((gain_reg_ st2 =? 0)
               && F32.ltb (integration_time_ st2) (F32.of_Z 200))
        then
          set_sensors_lux_ct
            (publish_state (illuminance_ st2) (illuminance_sensor_ st2))
            (publish_state (color_temperature_ st2)
               (color_temperature_sensor_ st2)) st2
        else st2)) =
    let computed :=
      match illuminance_sensor_ st, color_temperature_sensor_ st with
      | None, None => (illuminance_ st, color_temperature_ st)
      | _, _ => convert st r g b c
      end in
    if negb (integration_time_auto_ st) || (c <? 65530)
       || ((gain_reg_ st =? 0)
           && F32.ltb (integration_time_ st) (F32.of_Z 200))
    then (publish_state (fst computed) (illuminance_sensor_ st),
          publish_state (snd computed) (color_temperature_sensor_ st))
    else (illuminance_sensor_ st, color_temperature_sensor_ st)).
  { intros sr sg sb sc. cbv zeta.
    set (s1 := set_sensors_rgbc sr sg sb sc st).
    pose proof (calculate_keeps_sensors r g b c s1) as K.
    pose proof (calculate_keeps_settings r g b c s1) as S.
    pose proof (convert_ignores_sensors sr sg sb sc st r g b c) as C.
    fold s1 in C. unfold convert at 1 in C.
    set (s2 := calculate_temperature_and_lux_ r g b c s1) in *.
    unfold sensors_of in K. injection K as _ _ _ _ Ki Kc.
    unfold settings_of in S. injection S as Sr Sg St Sa.
    change (illuminance_sensor_ s1) with (illuminance_sensor_ st) in *.
    change (color_temperature_sensor_ s1)
      with (color_temperature_sensor_ st) in *.
    change (integration_time_auto_ s1) with (integration_time_auto_ st) in *.
    change (gain_reg_ s1) with (gain_reg_ st) in *.
    change (integration_time_ s1) with (integration_time_ st) in *.
    change (illuminance_ s1) with (illuminance_ st).
    change (color_temperature_ s1) with (color_temperature_ st).
    assert (Ci : illuminance_ s2 = fst (convert st r g b c))
      by (rewrite <- C; reflexivity).
    assert (Cc : color_temperature_ s2 = snd (convert st r g b c))
      by (rewrite <- C; reflexivity).
    destruct (illuminance_sensor_ st) as [i |] eqn:Ei,
             (color_temperature_sensor_ st) as [k |] eqn:Ek;
      cbv iota beta;
      try rewrite Sg, St, Sa;
      change (integration_time_auto_ s1)
        with (integration_time_auto_ st);
      change (gain_reg_ s1) with (gain_reg_ st);
      change (integration_time_ s1) with (integration_time_ st);
      destruct (negb (integration_time_auto_ st) || (c <? 65530)
                || ((gain_reg_ st =? 0)
                    && F32.ltb (integration_time_ st) (F32.of_Z 200)));
      cbn [set_sensors_lux_ct illuminance_sensor_
           color_temperature_sensor_ fst snd];
      try rewrite Ki; try rewrite Kc; try rewrite Ci; try rewrite Cc;
      try (change (illuminance_sensor_ s1) with (illuminance_sensor_ st);
           change (color_temperature_sensor_ s1)
             with (color_temperature_sensor_ st);
           rewrite Ei, Ek);
      reflexivity. }
  destruct (c =? 0); apply P.
Qed.

Lemma update_sensors (bus : Bus) (st st' : TCS34725Component)
    (d : list Z) (c r g b : Z) :
  read_crgb bus = Some d -> raw_counts d = Some (c, r, g, b) ->
  update bus st = Some st' ->
  sensors_of st' = sensors_of (measure_and_publish r g b c st).
Proof.
  intros Hread Hd Hu.
  rewrite (update_of_counts bus st d c r g b Hread Hd) in Hu.
  destruct (integration_time_auto_ st).
  - destruct (auto_adjust bus c (measure_and_publish r g b c st))
      as [s |] eqn:A; [| discriminate Hu].
    injection Hu as <-.
    exact (auto_adjust_keeps_sensors bus c _ s A).
  - injection Hu as <-. reflexivity.
Qed.

(** X14. After a cycle the illuminance and colour temperature sensors
    hold the conversion of the sample under the settings the cycle
    started with, when the component is in manual mode, or the clear
    count is below 65530, or the gain is 1x with a time below 200 ms;
    otherwise (automatic mode still searching, clear channel at the top)
    the two sensors keep their previous state.  A sensor that is absent
    stays absent. *)
Theorem photometry_published_or_kept
    (bus : Bus) (st st' : TCS34725Component) (d : list Z) (c r g b : Z) :
  read_crgb bus = Some d -> raw_counts d = Some (c, r, g, b) ->
  update bus st = Some st' ->
  (illuminance_sensor_ st', color_temperature_sensor_ st') =
    if publishes_photometry c st
    then (publish_state (fst (convert st r g b c)) (illuminance_sensor_ st),
          publish_state (snd (convert st r g b c))
            (color_temperature_sensor_ st))
    else (illuminance_sensor_ st, color_temperature_sensor_ st).
Proof.
  intros Hread Hd Hu.
  pose proof (update_sensors bus st st' d c r g b Hread Hd Hu) as S.
  unfold sensors_of in S. injection S as _ _ _ _ Si Sc.
  rewrite Si, Sc, published_photometry. cbv zeta.
  destruct (publishes_photometry c st); [| reflexivity].
  destruct (illuminance_sensor_ st), (color_temperature_sensor_ st);
    reflexivity.
Qed.

Lemma photometry_published_or_kept_witness :
  exists st',
    update bus_60_percent settled_604ms = Some st' /\
    (illuminance_sensor_ st', color_temperature_sensor_ st') =
      (Some (fst (convert settled_604ms 1000 1000 1000 39321)),
       Some (snd (convert settled_604ms 1000 1000 1000 39321))).
Proof.
  destruct (update bus_60_percent settled_604ms) as [st' |] eqn:E.
  - exists st'. split; [reflexivity |].
    apply (photometry_published_or_kept bus_60_percent settled_604ms st'
             [0x99; 0x99; 0xE8; 0x03; 0xE8; 0x03; 0xE8; 0x03]
             39321 1000 1000 1000); [reflexivity | reflexivity | exact E].
  - vm_compute in E. discriminate E.
Defined.

(** ** Colour percentages *)

Lemma le16_range (lo hi : Z) : is_uint16 (le16 lo hi).
Proof.
  unfold le16, is_uint16.
  pose proof (Z.mod_pos_bound (Z.lor lo (Z.shiftl hi 8)) 65536). lia.
Qed.

Lemma raw_counts_range (d : list Z) (c r g b : Z) :
  raw_counts d = Some (c, r, g, b) ->
  is_uint16 c /\ is_uint16 r /\ is_uint16 g /\ is_uint16 b.
Proof.
  unfold raw_counts.
  destruct d as [| d0 [| d1 [| d2 [| d3 [| d4 [| d5 [| d6
                 [| d7 [| d8 l]]]]]]]]]; try discriminate.
  intros H. injection H as <- <- <- <-.
  repeat split; apply le16_range.
Qed.

Lemma mul_finite_not_negative (x : spec_float) (my : positive) (ey : Z) :
  not_negative x = true ->
  not_negative (F32.mul x (S754_finite false my ey)) = true.
Proof.
  unfold F32.mul.
  destruct x as [s | s | | s mx ex]; cbn [SFmul not_negative];
    try (intros H; exact H).
  - intros H. rewrite xorb_false_r. exact H.
  - intros H. apply negb_true_iff in H. subst s.
    apply binary_round_aux_not_negative. lia.
Qed.

Lemma channel_percent_not_negative (raw raw_c : Z) :
  is_uint16 raw -> is_uint16 raw_c ->
  not_negative (channel_percent raw raw_c) = true.
Proof.
  intros Hr Hc. unfold channel_percent.
  destruct (Z.eqb_spec raw_c 0) as [E | N]; [reflexivity |].
  change (F32.of_Z 100) with (S754_finite false 13107200 (-17)).
  apply mul_finite_not_negative.
  pose proof (of_Z_positive_finite raw_c Hc N) as P.
  destruct (F32.of_Z raw_c) as [s | s | | s m e]; try discriminate.
  destruct s; [discriminate |].
  apply div_not_negative. apply of_Z_not_negative.
  destruct Hr; lia.
Qed.

(** X15. The red, green and blue percentages a cycle publishes are
    always numbers and never negative, for every read, a clear count of
    zero included (there the three are zero); a colour sensor that is
    absent stays absent. *)
Theorem colour_percentages_are_numbers
    (bus : Bus) (st st' : TCS34725Component) (d : list Z) (c r g b : Z) :
  read_crgb bus = Some d -> raw_counts d = Some (c, r, g, b) ->
  update bus st = Some st' ->
  holds_not_negative (red_sensor_ st') = present (red_sensor_ st) /\
  holds_not_negative (green_sensor_ st') = present (green_sensor_ st) /\
  holds_not_negative (blue_sensor_ st') = present (blue_sensor_ st).
Proof.
  intros Hread Hd Hu.
  pose proof (update_sensors bus st st' d c r g b Hread Hd Hu) as S.
  unfold sensors_of in S. injection S as Sr Sg Sb _ _ _.
  destruct (published_channels r g b c st) as (Pr & Pg & Pb).
  destruct (raw_counts_range d c r g b Hd) as (Rc & Rr & Rg & Rb).
  rewrite Sr, Sg, Sb, Pr, Pg, Pb.
  unfold holds_not_negative, present, publish_state.
  repeat split.
  - destruct (red_sensor_ st); [| reflexivity]. cbn [option_map].
    rewrite channel_percent_not_negative by assumption. reflexivity.
  - destruct (green_sensor_ st); [| reflexivity]. cbn [option_map].
    rewrite channel_percent_not_negative by assumption. reflexivity.
  - destruct (blue_sensor_ st); [| reflexivity]. cbn [option_map].
    rewrite channel_percent_not_negative by assumption. reflexivity.
Qed.

Lemma colour_percentages_are_numbers_witness :
  exists st',
    update bus_write_succeeds auto_4x_all_sensors = Some st' /\
    holds_not_negative (red_sensor_ st') = Some true /\
    holds_not_negative (green_sensor_ st') = Some true /\
    holds_not_negative (blue_sensor_ st') = Some true.
Proof.
  destruct (update bus_write_succeeds auto_4x_all_sensors)
    as [st' |] eqn:E.
  - exists st'. split; [reflexivity |].
    apply (colour_percentages_are_numbers bus_write_succeeds
             auto_4x_all_sensors st' [0x10; 0x27; 0; 0; 0; 0; 0; 0]
             10000 0 0 0); [reflexivity | reflexivity | exact E].
  - vm_compute in E. discriminate E.
Defined.

(** ** What a cycle never changes *)

Lemma calculate_keeps_glass (r g b c : Z) (st : TCS34725Component) :
  glass_attenuation_ (calculate_temperature_and_lux_ r g b c st)
  = glass_attenuation_ st.
Proof.
  unfold calculate_temperature_and_lux_.
  repeat match goal with
         | |- context [if ?x then _ else _] => destruct x
         end; reflexivity.
Qed.

Lemma measure_and_publish_keeps_glass
    (r g b c : Z) (st : TCS34725Component) :
  glass_attenuation_ (measure_and_publish r g b c st)
  = glass_attenuation_ st.
Proof.
  unfold measure_and_publish.
  destruct (c =? 0); cbv zeta iota beta;
    match goal with
    | |- context [calculate_temperature_and_lux_ r g b c ?s] =>
        pose proof (calculate_keeps_glass r g b c s) as K
    end;
    destruct (illuminance_sensor_ _), (color_temperature_sensor_ _);
    match goal with
    | |- context [if ?x then _ else _] => destruct x
    end; try exact K; reflexivity.
Qed.

Lemma set_gain_keeps_glass (gain : Z) (st : TCS34725Component) :
  glass_attenuation_ (set_gain gain st) = glass_attenuation_ st.
Proof.
  unfold set_gain.
  repeat match goal with
         | |- context [match ?x with _ => _ end] => destruct x
         end; reflexivity.
Qed.

Lemma auto_adjust_keeps_glass
    (bus : Bus) (raw_c : Z) (st st' : TCS34725Component) :
  auto_adjust bus raw_c st = Some st' ->
  glass_attenuation_ st' = glass_attenuation_ st.
Proof.
  unfold auto_adjust.
  destruct (adjust_gain raw_c st) as [gain_new ideal].
  destruct (integration_reg_from_ms _) as [regval |]; [| discriminate].
  cbv zeta.
  destruct (negb _ || negb _).
  - set (s := set_gain gain_new _).
    assert (Hs : glass_attenuation_ s = glass_attenuation_ st).
    { unfold s. rewrite set_gain_keeps_glass. reflexivity. }
    destruct (negb _ || negb _); intros H; injection H as <-; exact Hs.
  - intros H. injection H as <-. reflexivity.
Qed.

(** X16. A cycle never changes the mode (manual or automatic) nor the
    glass attenuation factor: both stay as configured, whatever is read
    and whatever the writes answer. *)
Theorem update_keeps_configuration
    (bus : Bus) (st st' : TCS34725Component) :
  update bus st = Some st' ->
  integration_time_auto_ st' = integration_time_auto_ st /\
  glass_attenuation_ st' = glass_attenuation_ st.
Proof.
  intros Hu. split.
  - destruct (update_control_cases bus st st' Hu)
      as [V | (c & regval & Ha & _ & [V | V])];
      unfold control_of, settings_of in V;
      injection V as _ _ _ Va _ _; congruence.
  - destruct (read_crgb bus) as [d |] eqn:Hread.
    2: { rewrite update_failed_read in Hu by (rewrite Hread; exact I).
         injection Hu as <-. reflexivity. }
    destruct (raw_counts d) as [[[[c r] g] b] |] eqn:Hd.
    2: { rewrite update_failed_read in Hu by (rewrite Hread; exact Hd).
         injection Hu as <-. reflexivity. }
    rewrite (update_of_counts bus st d c r g b Hread Hd) in Hu.
    pose proof (measure_and_publish_keeps_glass r g b c st) as G.
    destruct (integration_time_auto_ st).
    + destruct (auto_adjust bus c (measure_and_publish r g b c st))
        as [s |] eqn:A; [| discriminate Hu].
      injection Hu as <-.
      rewrite <- G. exact (auto_adjust_keeps_glass bus c _ s A).
    + injection Hu as <-. exact G.
Qed.

Lemma update_keeps_configuration_witness :
  exists st',
    update bus_write_fails auto_exposure_start = Some st' /\
    integration_time_auto_ st' = true /\
    glass_attenuation_ st' = glass_attenuation_ auto_exposure_start.
Proof.
  destruct (update bus_write_fails auto_exposure_start) as [st' |] eqn:E.
  - exists st'. split; [reflexivity |].
    apply (update_keeps_configuration bus_write_fails
             auto_exposure_start st' E).
  - vm_compute in E. discriminate E.
Defined.

(** ** Start-up *)



(** ** Configuration *)

(** X17. The three configuration calls act on separate parts of the
    component: gain, integration time and glass attenuation can be set in
    any order with the same result, and setting the gain twice keeps the
    last value. *)
Theorem configuration_calls_commute
    (gain gain' integration_time : Z) (ga : F32.t)
    (st : TCS34725Component) :
  set_gain gain (set_integration_time integration_time st)
  = set_integration_time integration_time (set_gain gain st) /\
  set_gain gain (set_glass_attenuation_factor ga st)
  = set_glass_attenuation_factor ga (set_gain gain st) /\
  set_integration_time integration_time (set_glass_attenuation_factor ga st)
  = set_glass_attenuation_factor ga
      (set_integration_time integration_time st) /\
  set_gain gain' (set_gain gain st) = set_gain gain' st.
Proof.
  unfold set_gain, set_integration_time, set_glass_attenuation_factor.
  repeat split;
    repeat match goal with
           | |- context [if ?x then _ else _] => destruct x
           | |- context [match ?x with _ => _ end] => destruct x
           end; reflexivity.
Qed.

(** ** Rounding gives numbers *)

Lemma Zdigits2_bounds (m : Z) :
  0 <= m -> m < 2 ^ Zdigits2 m /\ (0 < m -> 2 ^ (Zdigits2 m - 1) <= m).
Proof.
  intros H. destruct m as [| p | p]; try lia.
  - cbn. lia.
  - cbn [Zdigits2]. pose proof (digits2_pos_bounds p). lia.
Qed.

Lemma Zdigits2_nonneg (m : Z) : 0 <= m -> 0 <= Zdigits2 m.
Proof. intros H. destruct m as [| p | p]; cbn [Zdigits2]; lia. Qed.

(** Rounding a mantissa that is not negative, and that has 24 digits
    unless its exponent is below the smallest one, gives a number: zero,
    a value in canonical form, or infinity. *)
Lemma binary_round_aux_is_number
    (sx : bool) (mz ez : Z) (l : location) :
  0 <= mz -> ez <= fexp 24 128 (Zdigits2 mz + ez) ->
  is_number (binary_round_aux 24 128 sx mz ez l).
Proof.
  intros Hm He. rewrite fexp32 in He.
  destruct (Zdigits2_bounds mz Hm) as [Dhi Dlo].
  pose proof (Zdigits2_nonneg mz Hm) as Dnn.
  set (d := Zdigits2 mz) in *.
  unfold binary_round_aux, shr_fexp. fold d. rewrite fexp32.
  pose proof (shr_spec (shr_record_of_loc mz l) ez
                (Z.max (d + ez - 24) (-149) - ez)) as S1.
  destruct (shr (shr_record_of_loc mz l) ez
              (Z.max (d + ez - 24) (-149) - ez)) as [mrs1 e1].
  cbn [fst snd] in S1. rewrite shr_record_of_loc_m in S1.
  destruct S1 as [Sm Se]; [exact Hm |].
  replace (Z.max 0 (Z.max (d + ez - 24) (-149) - ez))
    with (Z.max (d + ez - 24) (-149) - ez) in Sm, Se by lia.
  pose proof (round_nearest_even_bounds (shr_m mrs1)
                (loc_of_shr_record mrs1)) as Hr.
  set (m2 := round_nearest_even (shr_m mrs1) (loc_of_shr_record mrs1)) in *.
  clearbody m2. rewrite Sm in Hr.
  destruct (Z_le_gt_dec (-149) (d + ez - 24)) as [Normal | Sub].
  - (* the normal range: 24 digits are kept *)
    replace (Z.max (d + ez - 24) (-149) - ez) with (d - 24) in * by lia.
    assert (Pn : 0 < 2 ^ (d - 24)) by (apply Z.pow_pos_nonneg; lia).
    assert (Hsplit : 2 ^ (d - 1) = 2 ^ (d - 24) * 2 ^ 23).
    { rewrite <- Z.pow_add_r by lia. f_equal. lia. }
    assert (Hsplit' : 2 ^ d = 2 ^ (d - 24) * 2 ^ 24).
    { rewrite <- Z.pow_add_r by lia. f_equal. lia. }
    assert (Hpos : 0 < mz).
    { destruct (Z.eq_dec mz 0) as [E | N]; [| lia].
      subst mz. unfold d in Normal, He. cbn [Zdigits2] in Normal, He.
      lia. }
    specialize (Dlo Hpos).
    assert (Hm'lo : 2 ^ 23 <= mz / 2 ^ (d - 24))
      by (apply Z.div_le_lower_bound; lia).
    assert (Hm'hi : mz / 2 ^ (d - 24) < 2 ^ 24)
      by (apply Z.div_lt_upper_bound; lia).
    destruct m2 as [| q | q]; try lia.
    cbn [Zdigits2].
    assert (Hq : Zpos q < 2 ^ 24 \/ Zpos q = 2 ^ 24) by lia.
    destruct Hq as [Hq | Hq].
    + rewrite (digits2_pos_unique q 24) by (change (24 - 1) with 23; lia).
      rewrite fexp32.
      replace (Z.max (24 + e1 - 24) (-149) - e1) with 0 by lia.
      cbn [shr shr_record_of_loc shr_m].
      destruct (e1 <=? 128 - 24) eqn:Le;
        [| split; [discriminate | reflexivity]].
      split; [discriminate |].
      unfold valid_binary, bounded, canonical_mantissa.
      rewrite (digits2_pos_unique q 24) by (change (24 - 1) with 23; lia).
      rewrite fexp32. rewrite Le.
      replace (Z.max (24 + e1 - 24) (-149)) with e1 by lia.
      rewrite Z.eqb_refl. reflexivity.
    + rewrite (digits2_pos_unique q 25) by (change (25 - 1) with 24; lia).
      rewrite fexp32.
      replace (Z.max (25 + e1 - 24) (-149) - e1) with 1 by lia.
      assert (Eq : q = 16777216%positive).
      { apply Pos2Z.inj. rewrite Hq. reflexivity. }
      subst q.
      cbn [shr shr_record_of_loc shr_m iter_pos shr_1].
      destruct (e1 + 1 <=? 128 - 24) eqn:Le;
        [| split; [discriminate | reflexivity]].
      split; [discriminate |].
      unfold valid_binary, bounded, canonical_mantissa.
      change (Zpos (digits2_pos 8388608)) with 24.
      rewrite fexp32. rewrite Le.
      replace (Z.max (24 + (e1 + 1) - 24) (-149)) with (e1 + 1) by lia.
      rewrite Z.eqb_refl. reflexivity.
  - (* below the normal range: the exponent is the smallest one *)
    replace (Z.max (d + ez - 24) (-149) - ez) with (-149 - ez) in * by lia.
    assert (Pn : 0 < 2 ^ (-149 - ez)) by (apply Z.pow_pos_nonneg; lia).
    assert (Hlt : mz < 2 ^ (-149 - ez) * 2 ^ 23).
    { rewrite <- Z.pow_add_r by lia.
      assert (2 ^ d <= 2 ^ (-149 - ez + 23))
        by (apply Z.pow_le_mono_r; lia).
      lia. }
    assert (Hm'hi : mz / 2 ^ (-149 - ez) < 2 ^ 23)
      by (apply Z.div_lt_upper_bound; lia).
    assert (Hm'lo : 0 <= mz / 2 ^ (-149 - ez))
      by (apply Z.div_pos; lia).
    assert (E1 : e1 = -149) by lia. clear Se. subst e1.
    destruct m2 as [| q | q]; try lia.
    + cbn [Zdigits2]. rewrite fexp32.
      change (Z.max (0 + -149 - 24) (-149) - -149) with 0.
      cbn [shr shr_record_of_loc shr_m].
      split; [discriminate | reflexivity].
    + cbn [Zdigits2].
      pose proof (digits2_pos_bounds q) as [Qlo Qhi].
      assert (Dq : Zpos (digits2_pos q) <= 24).
      { assert (2 ^ (Zpos (digits2_pos q) - 1) < 2 ^ 24)
          by (change (2 ^ 23) with 8388608 in *;
              change (2 ^ 24) with 16777216; lia).
        assert (Zpos (digits2_pos q) - 1 < 24)
          by (apply (Z.pow_lt_mono_r_iff 2); lia).
        lia. }
      rewrite fexp32.
      replace (Z.max (Zpos (digits2_pos q) + -149 - 24) (-149) - -149)
        with 0 by lia.
      cbn [shr shr_record_of_loc shr_m].
      change (-149 <=? 128 - 24) with true. cbv iota.
      split; [discriminate |].
      unfold valid_binary, bounded, canonical_mantissa.
      rewrite fexp32.
      replace (Z.max (Zpos (digits2_pos q) + -149 - 24) (-149))
        with (-149) by lia.
      reflexivity.
Qed.

Lemma valid_finite (s : bool) (m : positive) (e : Z) :
  valid_binary 24 128 (S754_finite s m e) = true ->
  e = Z.max (Zpos (digits2_pos m) + e - 24) (-149) /\ e <= 104.
Proof.
  unfold valid_binary, bounded, canonical_mantissa. intros H.
  apply andb_true_iff in H. destruct H as [H1 H2].
  apply Z.eqb_eq in H1. rewrite fexp32 in H1. apply Z.leb_le in H2.
  change (128 - 24) with 104 in H2.
  split; [symmetry; exact H1 | exact H2].
Qed.

(** The product of two numbers in canonical form is a number. *)
Lemma mul_finite_is_number
    (sx sy : bool) (mx my : positive) (ex ey : Z) :
  valid_binary 24 128 (S754_finite sx mx ex) = true ->
  valid_binary 24 128 (S754_finite sy my ey) = true ->
  is_number (F32.mul (S754_finite sx mx ex) (S754_finite sy my ey)).
Proof.
  intros Vx Vy.
  destruct (valid_finite _ _ _ Vx) as [Ex _].
  destruct (valid_finite _ _ _ Vy) as [Ey _].
  unfold F32.mul. cbn [SFmul].
  apply binary_round_aux_is_number; [lia |].
  rewrite fexp32. cbn [Zdigits2].
  destruct (digits2_pos_bounds mx) as [Xlo Xhi].
  destruct (digits2_pos_bounds my) as [Ylo Yhi].
  destruct (digits2_pos_bounds (mx * my)) as [Plo Phi].
  set (dx := Zpos (digits2_pos mx)) in *.
  set (dy := Zpos (digits2_pos my)) in *.
  set (d := Zpos (digits2_pos (mx * my))) in *.
  assert (Hdx : 1 <= dx) by (unfold dx; lia).
  assert (Hdy : 1 <= dy) by (unfold dy; lia).
  assert (Hd : dx + dy - 1 <= d).
  { assert (L : 2 ^ (dx + dy - 2) < 2 ^ d).
    { replace (dx + dy - 2) with ((dx - 1) + (dy - 1)) by lia.
      rewrite Z.pow_add_r by lia. rewrite Pos2Z.inj_mul in Phi.
      assert (0 < 2 ^ (dx - 1)) by (apply Z.pow_pos_nonneg; lia).
      assert (0 < 2 ^ (dy - 1)) by (apply Z.pow_pos_nonneg; lia).
      nia. }
    assert (dx + dy - 2 < d) by (apply (Z.pow_lt_mono_r_iff 2); lia).
    lia. }
  lia.
Qed.

Lemma mul_finite_l_is_number
    (sx : bool) (mx : positive) (ex : Z) (y : F32.t) :
  valid_binary 24 128 (S754_finite sx mx ex) = true ->
  is_number y -> is_number (F32.mul (S754_finite sx mx ex) y).
Proof.
  intros Vx [Hn Hv].
  destruct y as [s | s | | s my ey].
  - split; [discriminate | reflexivity].
  - split; [discriminate | reflexivity].
  - contradiction Hn. reflexivity.
  - apply mul_finite_is_number; assumption.
Qed.

Lemma mul_finite_r_is_number
    (x : F32.t) (sy : bool) (my : positive) (ey : Z) :
  is_number x -> valid_binary 24 128 (S754_finite sy my ey) = true ->
  is_number (F32.mul x (S754_finite sy my ey)).
Proof.
  intros [Hn Hv] Vy.
  destruct x as [s | s | | s mx ex].
  - split; [discriminate | reflexivity].
  - split; [discriminate | reflexivity].
  - contradiction Hn. reflexivity.
  - apply mul_finite_is_number; assumption.
Qed.

(** The quotient of a number by a finite number that is not zero is a
    number. *)
Lemma div_finite_is_number
    (x : F32.t) (sy : bool) (my : positive) (ey : Z) :
  is_number x -> is_number (F32.div x (S754_finite sy my ey)).
Proof.
  intros [Hn Hv].
  destruct x as [s | s | | s mx ex].
  - split; [discriminate | reflexivity].
  - split; [discriminate | reflexivity].
  - contradiction Hn. reflexivity.
  - destruct (valid_finite _ _ _ Hv) as [Ex _].
    unfold F32.div. cbn [SFdiv]. unfold SFdiv_core_binary.
    cbn [Zdigits2]. rewrite fexp32.
    destruct (digits2_pos_bounds mx) as [Xlo Xhi].
    destruct (digits2_pos_bounds my) as [Ylo Yhi].
    set (d1 := Zpos (digits2_pos mx)) in *.
    set (d2 := Zpos (digits2_pos my)) in *.
    assert (Hd1 : 1 <= d1 <= 24) by (unfold d1 in *; lia).
    assert (Hd2 : 1 <= d2) by (unfold d2; lia).
    set (e' := Z.min (Z.max (d1 + ex - (d2 + ey) - 24) (-149)) (ex - ey)).
    assert (Hs : 0 <= ex - ey - e') by (unfold e'; lia).
    set (m' := match ex - ey - e' with
               | 0 => Zpos mx
               | Zpos _ => Z.shiftl (Zpos mx) (ex - ey - e')
               | Zneg _ => 0
               end).
    assert (Hm' : m' = Zpos mx * 2 ^ (ex - ey - e')).
    { unfold m'. destruct (ex - ey - e') as [| p | p]; try lia.
      rewrite Z.shiftl_mul_pow2 by lia. reflexivity. }
    assert (Ps : 0 < 2 ^ (ex - ey - e')) by (apply Z.pow_pos_nonneg; lia).
    pose proof (Z_div_mod m' (Zpos my) eq_refl) as D.
    destruct (Z.div_eucl m' (Zpos my)) as [q r]. destruct D as [D1 D2].
    assert (Hq : 0 <= q) by nia.
    apply binary_round_aux_is_number; [exact Hq |].
    rewrite fexp32.
    destruct (Z_le_gt_dec e' (-149)) as [Low | High]; [lia |].
    assert (Hshift : 24 + d2 - d1 <= ex - ey - e') by (unfold e' in *; lia).
    assert (A : 2 ^ 23 * 2 ^ d2 <= m').
    { rewrite Hm'.
      replace (2 ^ 23 * 2 ^ d2) with (2 ^ (d1 - 1) * 2 ^ (24 + d2 - d1)).
      - apply Z.mul_le_mono_nonneg;
          first [lia | apply Z.pow_nonneg; lia
                | apply Z.pow_le_mono_r; lia].
      - rewrite <- !Z.pow_add_r by lia. f_equal. lia. }
    assert (B : 2 ^ 23 <= q).
    { destruct (Z_lt_le_dec q (2 ^ 23)) as [L | G]; [| exact G].
      assert (Zpos my * (q + 1) <= Zpos my * 2 ^ 23)
        by (apply Z.mul_le_mono_nonneg_l; lia).
      change (2 ^ 23) with 8388608 in *. lia. }
    destruct q as [| qp | qp]; try (change (2 ^ 23) with 8388608 in B; lia).
    cbn [Zdigits2].
    destruct (digits2_pos_bounds qp) as [Qlo Qhi].
    assert (23 < Zpos (digits2_pos qp)).
    { apply (Z.pow_lt_mono_r_iff 2); lia. }
    lia.
Qed.

(** ** An automatic cycle returns *)

Lemma normal_is_valid (s : bool) (m : positive) (e : Z) :
  2 ^ 23 <= Zpos m < 2 ^ 24 -> -149 <= e <= 104 ->
  valid_binary 24 128 (S754_finite s m e) = true.
Proof.
  intros Hm He. unfold valid_binary, bounded, canonical_mantissa.
  rewrite (digits2_pos_unique m 24) by (change (24 - 1) with 23; lia).
  rewrite fexp32.
  replace (Z.max (24 + e - 24) (-149)) with e by lia.
  rewrite Z.eqb_refl.
  replace (e <=? 128 - 24) with true by (symmetry; apply Z.leb_le; lia).
  reflexivity.
Qed.

(** The quotient of two numbers with 24-digit mantissas, when its
    exponent stays in the normal range. *)
Lemma div_normal (s1 s2 : bool) (m1 m2 : positive) (e1 e2 : Z) :
  2 ^ 23 <= Zpos m1 < 2 ^ 24 -> 2 ^ 23 <= Zpos m2 < 2 ^ 24 ->
  -149 <= e1 - e2 - 24 -> e1 - e2 - 22 <= 104 ->
  exists mq eq,
    F32.div (S754_finite s1 m1 e1) (S754_finite s2 m2 e2)
    = S754_finite (xorb s1 s2) mq eq /\
    2 ^ 23 <= Zpos mq < 2 ^ 24 /\
    e1 - e2 - 24 <= eq <= e1 - e2 - 22.
Proof.
  intros H1 H2 Hlo Hhi.
  unfold F32.div. cbn [SFdiv]. unfold SFdiv_core_binary. cbn [Zdigits2].
  rewrite (digits2_pos_unique m1 24) by (change (24 - 1) with 23; lia).
  rewrite (digits2_pos_unique m2 24) by (change (24 - 1) with 23; lia).
  rewrite fexp32.
  replace (Z.min (Z.max (24 + e1 - (24 + e2) - 24) (-149)) (e1 - e2))
    with (e1 - e2 - 24) by lia.
  replace (e1 - e2 - (e1 - e2 - 24)) with 24 by lia.
  cbv iota beta.
  change (2 ^ 23) with 8388608 in *. change (2 ^ 24) with 16777216 in *.
  assert (Hs : Z.shiftl (Zpos m1) 24 = Zpos m1 * 16777216).
  { rewrite Z.shiftl_mul_pow2 by lia. reflexivity. }
  pose proof (Z_div_mod (Z.shiftl (Zpos m1) 24) (Zpos m2) eq_refl) as D.
  destruct (Z.div_eucl (Z.shiftl (Zpos m1) 24) (Zpos m2)) as [q r].
  rewrite Hs in D. destruct D as [D1 D2].
  assert (Qlo : 8388608 <= q).
  { destruct (Z_lt_le_dec q 8388608) as [L | G]; [| exact G].
    assert (Zpos m2 * (q + 1) <= Zpos m2 * 8388608)
      by (apply Z.mul_le_mono_nonneg_l; lia).
    lia. }
  assert (Qhi : q < 33554432).
  { destruct (Z_lt_le_dec q 33554432) as [L | G]; [exact L |].
    assert (Zpos m2 * 33554432 <= Zpos m2 * q)
      by (apply Z.mul_le_mono_nonneg_l; lia).
    lia. }
  destruct q as [| qp | qp]; try lia.
  assert (Dq : Zpos (digits2_pos qp) = 24 \/ Zpos (digits2_pos qp) = 25).
  { destruct (Z_lt_le_dec (Zpos qp) 16777216) as [L | G].
    - left. apply digits2_pos_unique.
      change (2 ^ (24 - 1)) with 8388608.
      change (2 ^ 24) with 16777216. lia.
    - right. apply digits2_pos_unique.
      change (2 ^ (25 - 1)) with 16777216.
      change (2 ^ 25) with 33554432. lia. }
  destruct (binary_round_aux_normal (xorb s1 s2) qp (e1 - e2 - 24)
              (new_location (Zpos m2) r))
    as (mR & eR & E & HR & C); [lia | lia |].
  exists mR, eR. split; [exact E |].
  change (2 ^ 23) with 8388608 in *. change (2 ^ 24) with 16777216 in *.
  split; [exact HR |].
  destruct C as [[C _] | [C _]]; lia.
Qed.

(** The counts from 1 on, as single precision numbers. *)
Lemma of_Z_counts_normal :
  forall_from
    (fun c =>
       match F32.of_Z c with
       | S754_finite false m e =>
           (2 ^ 23 <=? Zpos m) && (Zpos m <? 2 ^ 24)
           && (-23 <=? e) && (e <=? -8)
       | _ => false
       end)
    1 (Z.to_nat 65535) = true.
Proof. vm_compute. reflexivity. Qed.

(** The factor [60 / (max(1, raw_c) / 655.35f)] is a positive number for
    every count. *)
Lemma exposure_factor_finite (c : Z) :
  1 <= c <= 65535 ->
  exists mk ek,
    F32.div (F32.of_Z 60) (F32.div (F32.of_Z c) (F32.lit 65535 100))
    = S754_finite false mk ek /\
    valid_binary 24 128 (S754_finite false mk ek) = true.
Proof.
  intros Hc.
  assert (Hk : 1 <= c < 1 + Z.of_nat (Z.to_nat 65535)).
  { rewrite Z2Nat.id by lia. lia. }
  pose proof (forall_from_spec _ _ 1 of_Z_counts_normal c Hk) as K.
  cbv beta in K.
  destruct (F32.of_Z c) as [s | s | | s m e]; try discriminate K.
  destruct s; [discriminate K |].
  apply andb_true_iff in K. destruct K as [K K4].
  apply andb_true_iff in K. destruct K as [K K3].
  apply andb_true_iff in K. destruct K as [K1 K2].
  apply Z.leb_le in K1, K3, K4. apply Z.ltb_lt in K2.
  replace (F32.lit 65535 100) with (S754_finite false 10737254 (-14))
    by (vm_compute; reflexivity).
  destruct (div_normal false false m 10737254 e (-14))
    as (mi & ei & Ei & Hi & Ri); try lia.
  rewrite Ei. cbn [xorb].
  replace (F32.of_Z 60) with (S754_finite false 15728640 (-18))
    by (vm_compute; reflexivity).
  destruct (div_normal false false 15728640 mi (-18) ei)
    as (mk & ek & Ek & Hk' & Rk); try lia.
  exists mk, ek. split; [exact Ek |].
  apply normal_is_valid; [exact Hk' | lia].
Qed.

Lemma ideal0_is_number (raw_c : Z) (st : TCS34725Component) :
  is_uint16 raw_c -> is_number (integration_time_ st) ->
  is_number (integration_time_ideal0 raw_c st).
Proof.
  intros Hc Ht. unfold integration_time_ideal0.
  destruct (exposure_factor_finite (Z.max 1 raw_c)) as (mk & ek & E & V).
  { unfold is_uint16 in Hc. lia. }
  rewrite E. apply mul_finite_l_is_number; assumption.
Qed.

Lemma four_is_finite : F32.of_Z 4 = S754_finite false 8388608 (-21).
Proof. vm_compute. reflexivity. Qed.

Lemma adjust_gain_is_number (raw_c : Z) (st : TCS34725Component) :
  is_uint16 raw_c -> is_number (integration_time_ st) ->
  is_number (snd (adjust_gain raw_c st)).
Proof.
  intros Hc Ht.
  pose proof (ideal0_is_number raw_c st Hc Ht) as I.
  unfold adjust_gain. cbv zeta. rewrite four_is_finite.
  destruct (gain_increases raw_c st), (gain_decreases raw_c st);
    cbn [snd].
  - apply mul_finite_r_is_number; [| reflexivity].
    apply div_finite_is_number. exact I.
  - apply div_finite_is_number. exact I.
  - apply mul_finite_r_is_number; [exact I | reflexivity].
  - exact I.
Qed.

Lemma clamp_is_number (ideal : F32.t) :
  is_number ideal -> is_number (clamp_spec ideal).
Proof.
  intros H. unfold clamp_spec.
  destruct (F32.ltb ideal (F32.of_Z 154)).
  - split; [vm_compute; discriminate | vm_compute; reflexivity].
  - destruct (F32.ltb (F32.lit 6144 10) ideal); [| exact H].
    split; [vm_compute; discriminate | vm_compute; reflexivity].
Qed.

(** ** Ranges of the registers *)

Lemma adjust_gain_one_step (raw_c : Z) (st : TCS34725Component) :
  0 <= gain_reg_ st <= 3 ->
  0 <= fst (adjust_gain raw_c st) <= 3 /\
  Z.abs (fst (adjust_gain raw_c st) - gain_reg_ st) <= 1.
Proof.
  intros Hg. unfold adjust_gain.
  destruct (gain_increases raw_c st) eqn:Hi.
  - rewrite (gain_steps_exclusive raw_c st Hi). cbn [fst].
    unfold gain_increases in Hi. apply andb_true_iff in Hi.
    destruct Hi as [Hlt _]. apply Z.ltb_lt in Hlt.
    unfold wrap8. rewrite Z.mod_small by lia. lia.
  - destruct (gain_decreases raw_c st) eqn:Hd; cbn [fst]; [| lia].
    unfold gain_decreases in Hd. apply andb_true_iff in Hd.
    destruct Hd as [Hlt _]. apply Z.ltb_lt in Hlt.
    unfold wrap8. rewrite Z.mod_small by lia. lia.
Qed.

Lemma update_returns (bus : Bus) (st : TCS34725Component) :
  is_number (integration_time_ st) -> exists st', update bus st = Some st'.
Proof.
  intros Ht.
  destruct (read_crgb bus) as [d |] eqn:Hread.
  2: { rewrite update_failed_read by (rewrite Hread; exact I).
       eexists. reflexivity. }
  destruct (raw_counts d) as [[[[c r] g] b] |] eqn:Hd.
  2: { rewrite update_failed_read by (rewrite Hread; exact Hd).
       eexists. reflexivity. }
  pose proof (update_control_value bus st d c r g b Hread Hd) as V.
  destruct (raw_counts_range d c r g b Hd) as [Hc _].
  destruct (update bus st) as [st' |]; [exists st'; reflexivity |].
  exfalso. cbn [option_map] in V.
  destruct (integration_time_auto_ st); [| discriminate V].
  rewrite auto_adjust_control_value in V.
  destruct (proposed_is_defined (snd (adjust_gain c st))
              (adjust_gain_is_number c st Hc Ht)) as (reg & E & _).
  rewrite E in V. discriminate V.
Qed.

(** The cases of [update_control_cases], with the range of the count. *)
Lemma update_control_cases_count
    (bus : Bus) (st st' : TCS34725Component) :
  update bus st = Some st' ->
  control_of st' = control_of st \/
  exists c regval,
    is_uint16 c /\
    proposed_integration_reg (snd (adjust_gain c st)) = Some regval /\
    integration_reg_ st' = regval /\
    gain_reg_ st' = fst (adjust_gain c st) /\
    (integration_time_ st' = integration_time_ st \/
     integration_time_ st' = clamp_spec (snd (adjust_gain c st))).
Proof.
  intros Hu.
  destruct (read_crgb bus) as [d |] eqn:Hread.
  2: { rewrite update_failed_read in Hu by (rewrite Hread; exact I).
       injection Hu as <-. left. reflexivity. }
  destruct (raw_counts d) as [[[[c r] g] b] |] eqn:Hd.
  2: { rewrite update_failed_read in Hu by (rewrite Hread; exact Hd).
       injection Hu as <-. left. reflexivity. }
  pose proof (update_control_value bus st d c r g b Hread Hd) as V.
  destruct (raw_counts_range d c r g b Hd) as [Hc _].
  rewrite Hu in V. cbn [option_map] in V.
  destruct (integration_time_auto_ st) eqn:Ha.
  2: { left. congruence. }
  rewrite auto_adjust_control_value in V.
  destruct (proposed_integration_reg (snd (adjust_gain c st)))
    as [regval |] eqn:Hreg; [| discriminate V].
  cbv zeta in V. rewrite saturate_integration_time_clamps in V.
  destruct (negb (integration_reg_ st =? regval)
            || negb (fst (adjust_gain c st) =? gain_reg_ st));
    [| left; congruence].
  right. exists c, regval. split; [exact Hc |]. split; [exact Hreg |].
  unfold control_of, settings_of in V.
  destruct (negb _ || negb _); injection V as Vr Vg Vt _ _ _;
    (split; [exact Vr |]); (split; [exact Vg |]);
    [left | right]; exact Vt.
Qed.

(** X18. Registers that start inside their ranges stay there, and the
    cycle is defined: when the cached integration time is a number, every
    cycle returns, with the integration register an 8-bit value (at most
    191 when the cycle has changed the exposure), the gain register
    between 0 and 3 and moved by at most one step, and the cached time a
    number again. *)
Theorem update_keeps_registers_in_range
    (bus : Bus) (st : TCS34725Component) :
  registers_in_range st -> is_number (integration_time_ st) ->
  exists st',
    update bus st = Some st' /\
    registers_in_range st' /\
    Z.abs (gain_reg_ st' - gain_reg_ st) <= 1 /\
    (control_of st' = control_of st \/ 0 <= integration_reg_ st' <= 191) /\
    is_number (integration_time_ st').
Proof.
  intros [Hr Hg] Ht.
  destruct (update_returns bus st Ht) as [st' Hu].
  exists st'. split; [exact Hu |]. unfold registers_in_range.
  destruct (update_control_cases_count bus st st' Hu)
    as [V | (c & regval & Hc & Hreg & Er & Eg & Et)].
  - pose proof V as V'.
    unfold control_of, settings_of in V'. injection V' as Vr Vg Vt _ _ _.
    rewrite Vr, Vg, Vt.
    split; [split; assumption |]. split; [lia |].
    split; [left; exact V | exact Ht].
  - pose proof (adjust_gain_is_number c st Hc Ht) as I.
    destruct (proposed_is_defined _ I) as (reg & Hreg' & Hrange).
    assert (reg = regval) by congruence. subst reg.
    destruct (adjust_gain_one_step c st Hg) as [G1 G2].
    rewrite Er, Eg.
    split; [split; [unfold is_uint8; lia | exact G1] |].
    split; [exact G2 |].
    split; [right; exact Hrange |].
    destruct Et as [-> | ->]; [exact Ht | apply clamp_is_number; exact I].
Qed.

Lemma update_keeps_registers_in_range_witness :
  exists st',
    update bus_write_succeeds auto_exposure_start = Some st' /\
    registers_in_range st' /\
    Z.abs (gain_reg_ st' - gain_reg_ auto_exposure_start) <= 1 /\
    (control_of st' = control_of auto_exposure_start \/
     0 <= integration_reg_ st' <= 191) /\
    is_number (integration_time_ st').
Proof.
  apply (update_keeps_registers_in_range bus_write_succeeds
           auto_exposure_start).
  - unfold registers_in_range, is_uint8. vm_compute.
    repeat split; discriminate.
  - split; [vm_compute; discriminate | vm_compute; reflexivity].
Defined.
